(** * BeBoPr R2 board configuration (bebopr_r2.c)

    A shallow embedding of the board-configuration and power-sequencing
    layer: the kernel variant detector, the pre-init orchestrator, the
    per-axis accessors, the calibration positions and the I/O power
    sequencer.  Module-level statics are fields of a record that is
    threaded through a small state monad; every call that leaves the
    module (uname, the four subsystem registrations, the EEPROM read, the
    GPIO writes, the diagnostics on stderr) is appended to a trace. *)

From Stdlib Require Import ZArith List String Ascii Bool Lia PrimFloat.
Import ListNotations.

Set Warnings "-inexact-float".
Local Open Scope string_scope.
Local Open Scope Z_scope.

(** ** Build-time selection

    The preprocessor symbols the file tests with [#if defined]. *)

Record build_config : Type := {
  BONE_ENA_PATCH : bool;
  BONE_BRIDGE : bool;
  BBB : bool;
  ADS1X15 : bool;
  LASER_CUTTER : bool
}.

(** ** Types declared in the headers *)

(** Modelled from the spec: the enumeration [kernel_type] of bebopr.h,
    "enumerated {unknown, 3.2-legacy, 3.8-device-tree, other}". *)
Inductive kernel_type : Type :=
| e_kernel_unknown
| e_kernel_3_2
| e_kernel_3_8
| e_kernel_other.

Definition kernel_type_eqb (a b : kernel_type) : bool :=
  match a, b with
  | e_kernel_unknown, e_kernel_unknown => true
  | e_kernel_3_2, e_kernel_3_2 => true
  | e_kernel_3_8, e_kernel_3_8 => true
  | e_kernel_other, e_kernel_other => true
  | _, _ => false
  end.

(** Modelled from the spec: the enumeration [axis_e], "one of a fixed
    enumerated set {X, Y, Z, E, ..., undefined}".  [other_axis n] stands
    for any value of the C enumeration type that is none of the four named
    ones; [n] is its integer value. *)
Inductive axis_e : Type :=
| x_axis
| y_axis
| z_axis
| e_axis
| other_axis (n : Z).

(** The identity tags created by [GENERATE_TAG]: one static character
    array per name, compared by address.  An enumeration has exactly that
    equality. *)
Inductive tag : Type :=
| bed_thermistor
| extruder_thermistor
| spare_ain
| pwm_laser_power
| temp_extruder
| temp_bed
| heater_extruder
| heater_bed
| pwm_extruder
| pwm_bed
| pwm_fan.

(** [#name]: the text each tag array holds. *)
Definition tag_text (t : tag) : string :=
  match t with
  | bed_thermistor => "bed_thermistor"
  | extruder_thermistor => "extruder_thermistor"
  | spare_ain => "spare_ain"
  | pwm_laser_power => "pwm_laser_power"
  | temp_extruder => "temp_extruder"
  | temp_bed => "temp_bed"
  | heater_extruder => "heater_extruder"
  | heater_bed => "heater_bed"
  | pwm_extruder => "pwm_extruder"
  | pwm_bed => "pwm_bed"
  | pwm_fan => "pwm_fan"
  end.

(** Modelled from the spec: the conversion functions of thermistor.h that
    the temperature table refers to, by name. *)
Inductive conversion : Type :=
| bone_epcos_b5760g104f
| bone_bed_thermistor_330k.

(** Modelled from the spec: the record types of analog.h, temp.h, pwm.h
    and heater.h, with the fields the initialisers of this file set. *)
Record analog_config_record : Type := {
  analog_tag : tag;
  analog_device_path : string;
  filter_length : Z
}.

Record temp_config_record : Type := {
  temp_tag : tag;
  source : tag;
  in_range_time : Z;
  temp_conversion : conversion
}.

Record pwm_config_record : Type := {
  pwm_tag : tag;
  pwm_device_path : string;
  frequency : Z
}.

Record pid_settings : Type := {
  FF_factor : float;
  FF_offset : float;
  P : float;
  I : float;
  D : float;
  I_limit : float
}.

Record heater_config_record : Type := {
  heater_tag : tag;
  analog_input : tag;
  analog_output : tag;
  pid : pid_settings
}.

(** ** The configuration tables *)

Section Tables.

Variable bc : build_config.

Definition AIN_CHANNEL_BED : string :=
  if ADS1X15 bc then "/sys/bus/i2c/drivers/ads1015/1-0048/in5_input"
  else if negb (BBB bc) then "/sys/devices/platform/omap/tsc/ain2"
  else if BONE_BRIDGE bc then "/sys/bus/iio/devices/iio:device0/in_voltage4_raw"
  else "/sys/bus/iio/devices/iio:device0/in_voltage1_raw".

Definition AIN_CHANNEL_EXTR : string :=
  if ADS1X15 bc then "/sys/bus/i2c/drivers/ads1015/1-0048/in6_input"
  else if negb (BBB bc) then "/sys/devices/platform/omap/tsc/ain6"
  else if BONE_BRIDGE bc then "/sys/bus/iio/devices/iio:device0/in_voltage5_raw"
  else "/sys/bus/iio/devices/iio:device0/in_voltage5_raw".

Definition AIN_CHANNEL_SPARE : string :=
  if ADS1X15 bc then "/sys/bus/i2c/drivers/ads1015/1-0048/in4_input"
  else if negb (BBB bc) then "/sys/devices/platform/omap/tsc/ain4"
  else if BONE_BRIDGE bc then "/sys/bus/iio/devices/iio:device0/in_voltage6_raw"
  else "/sys/bus/iio/devices/iio:device0/in_voltage3_raw".

Definition AIN_SCALE : Z := if ADS1X15 bc then 2048 else 1800.

Definition PWM0_OUTPUT_PATH : string :=
  if BBB bc then "/sys/devices/ocp.2/bebopr_pwm_J2.fixme"
  else "/sys/class/pwm/ehrpwm.2:1".
Definition PWM1_OUTPUT_PATH : string :=
  if BBB bc then "/sys/devices/ocp.2/bebopr_pwm_J3.fixme"
  else "/sys/class/pwm/ehrpwm.2:0".
Definition PWM2_OUTPUT_PATH : string :=
  if BBB bc then "/sys/devices/ocp.2/bebopr_pwm_J4.fixme"
  else "/sys/class/pwm/ehrpwm.1:0".
Definition PWM0_OUTPUT_FREQ : Z := 0.
Definition PWM1_OUTPUT_FREQ : Z := if BBB bc then 0 else 400.
Definition PWM2_OUTPUT_FREQ : Z := if BBB bc then 0 else 1.

Definition analog_config_data : list analog_config_record :=
  [ {| analog_tag := bed_thermistor;
       analog_device_path := AIN_CHANNEL_BED;
       filter_length := 0 |};
    {| analog_tag := spare_ain;
       analog_device_path := AIN_CHANNEL_SPARE;
       filter_length := 10 |};
    {| analog_tag := extruder_thermistor;
       analog_device_path := AIN_CHANNEL_EXTR;
       filter_length := 0 |} ].

Definition temp_config_data : list temp_config_record :=
  if LASER_CUTTER bc then []
  else
    [ {| temp_tag := temp_extruder;
         source := extruder_thermistor;
         in_range_time := 15000;
         temp_conversion := bone_epcos_b5760g104f |};
      {| temp_tag := temp_bed;
         source := bed_thermistor;
         in_range_time := 15000;
         temp_conversion := bone_bed_thermistor_330k |} ].

Definition pwm_config_data : list pwm_config_record :=
  if LASER_CUTTER bc then
    [ {| pwm_tag := pwm_laser_power;
         pwm_device_path := PWM1_OUTPUT_PATH;
         frequency := PWM1_OUTPUT_FREQ |} ]
  else
    [ {| pwm_tag := pwm_extruder;
         pwm_device_path := PWM1_OUTPUT_PATH;
         frequency := PWM1_OUTPUT_FREQ |};
      {| pwm_tag := pwm_fan;
         pwm_device_path := PWM0_OUTPUT_PATH;
         frequency := PWM0_OUTPUT_FREQ |};
      {| pwm_tag := pwm_bed;
         pwm_device_path := PWM2_OUTPUT_PATH;
         frequency := PWM2_OUTPUT_FREQ |} ].

Definition heater_config_data : list heater_config_record :=
  if LASER_CUTTER bc then []
  else
    [ {| heater_tag := heater_extruder;
         analog_input := temp_extruder;
         analog_output := pwm_extruder;
         pid := {| FF_factor := 0.33; FF_offset := 40.0; P := 15.0;
                   I := 0.0; D := 0.0; I_limit := 10.0 |} |};
      {| heater_tag := heater_bed;
         analog_input := temp_bed;
         analog_output := pwm_bed;
         pid := {| FF_factor := 1.03; FF_offset := 29.0; P := 25.0;
                   I := 0.05; D := 0.0; I_limit := 80.0 |} |} ].

End Tables.

(** [NR_ITEMS]: the number of elements of an array. *)
Definition NR_ITEMS {A : Type} (table : list A) : Z := Z.of_nat (List.length table).

(** ** C strings *)

Definition char_code (c : ascii) : Z := Z.of_N (N_of_ascii c).

(** The character a [char*] points at; past the end of the text it is the
    terminating NUL. *)
Definition deref (s : string) : Z :=
  match s with
  | EmptyString => 0
  | String c _ => char_code c
  end.

Definition advance (s : string) : string :=
  match s with
  | EmptyString => EmptyString
  | String _ rest => rest
  end.

(** [strncmp]: compares at most [n] characters, stops after a common NUL,
    and returns the difference of the first two characters that differ. *)
Fixpoint strncmp (s1 s2 : string) (n : nat) : Z :=
  match n with
  | O => 0
  | S n' =>
      if deref s1 =? deref s2 then
        if deref s1 =? 0 then 0 else strncmp (advance s1) (advance s2) n'
      else deref s1 - deref s2
  end.

(** What [strncpy( dst, src, size); dst[ size - 1] = '\0';] leaves in
    [dst], read as a C string: the characters of [src] before its first
    NUL, at most [size - 1] of them. *)
Fixpoint c_string_take (n : nat) (src : string) : string :=
  match n, src with
  | O, _ => EmptyString
  | _, EmptyString => EmptyString
  | S n', String c rest =>
      if char_code c =? 0 then EmptyString else String c (c_string_take n' rest)
  end.

Definition strncpy_terminated (src : string) (size : nat) : string :=
  c_string_take (Nat.pred size) src.

(** The text holds no NUL character. *)
Fixpoint no_nul (p : string) : Prop :=
  match p with
  | EmptyString => True
  | String c p' => char_code c <> 0 /\ no_nul p'
  end.

(** [strcat] on C strings that hold no NUL inside. *)
Definition strcat (dst src : string) : string := dst ++ src.

Definition newline : string := String (ascii_of_nat 10) EmptyString.

(** ** The world outside the module *)

(** [struct utsname], of which only [release] is read. *)
Record utsname : Type := { release : string }.

(** Every call that leaves the module, with its arguments and, where the
    module reads it, with what the call returned. *)
Inductive event : Type :=
| ev_uname (rc : Z) (u : utsname)
| ev_stderr (text : string)
| ev_analog_config (table : list analog_config_record) (nr : Z) (rc : Z)
| ev_temp_config (table : list temp_config_record) (nr : Z) (rc : Z)
| ev_pwm_config (table : list pwm_config_record) (nr : Z) (rc : Z)
| ev_heater_config (table : list heater_config_record) (nr : Z) (rc : Z)
| ev_eeprom_get_step_io_config (path : string) (rc : Z)
| ev_gpio_write_int_value_to_file (file : string) (value : Z)
| ev_gpio_write_value_to_pin_file (pin : Z) (file : string) (value : string).

(** The external collaborators.  What a call returns may depend on its
    arguments and on everything that happened before it.  [EEPROM_PATH]
    and [TB6560_DRIVERS] are the constants of eeprom.h. *)
Record externals : Type := {
  uname : list event -> Z * utsname;
  analog_config : list event -> list analog_config_record -> Z -> Z;
  temp_config : list event -> list temp_config_record -> Z -> Z;
  pwm_config : list event -> list pwm_config_record -> Z -> Z;
  heater_config : list event -> list heater_config_record -> Z -> Z;
  eeprom_get_step_io_config : list event -> string -> Z;
  EEPROM_PATH : string;
  TB6560_DRIVERS : Z
}.

(** ** The statics of the module *)

Record statics : Type := {
  use_pololu_drivers : Z;
  current_kernel : kernel_type;
  kernel_release : string;
  x_cal_pos : float;
  y_cal_pos : float;
  z_cal_pos : float;
  e_axis_rel_mode : Z
}.

(** The initialisers of the static variables. *)
Definition initial_statics : statics := {|
  use_pololu_drivers := 1;
  current_kernel := e_kernel_unknown;
  kernel_release := "";
  x_cal_pos := 0.0;
  y_cal_pos := 0.0;
  z_cal_pos := -2.7955E-3;
  e_axis_rel_mode := 0
|}.

Definition set_use_pololu_drivers (v : Z) (s : statics) : statics :=
  {| use_pololu_drivers := v; current_kernel := current_kernel s;
     kernel_release := kernel_release s; x_cal_pos := x_cal_pos s;
     y_cal_pos := y_cal_pos s; z_cal_pos := z_cal_pos s;
     e_axis_rel_mode := e_axis_rel_mode s |}.

Definition set_current_kernel (v : kernel_type) (s : statics) : statics :=
  {| use_pololu_drivers := use_pololu_drivers s; current_kernel := v;
     kernel_release := kernel_release s; x_cal_pos := x_cal_pos s;
     y_cal_pos := y_cal_pos s; z_cal_pos := z_cal_pos s;
     e_axis_rel_mode := e_axis_rel_mode s |}.

Definition set_kernel_release (v : string) (s : statics) : statics :=
  {| use_pololu_drivers := use_pololu_drivers s;
     current_kernel := current_kernel s;
     kernel_release := v; x_cal_pos := x_cal_pos s;
     y_cal_pos := y_cal_pos s; z_cal_pos := z_cal_pos s;
     e_axis_rel_mode := e_axis_rel_mode s |}.

Definition set_x_cal_pos (v : float) (s : statics) : statics :=
  {| use_pololu_drivers := use_pololu_drivers s;
     current_kernel := current_kernel s;
     kernel_release := kernel_release s; x_cal_pos := v;
     y_cal_pos := y_cal_pos s; z_cal_pos := z_cal_pos s;
     e_axis_rel_mode := e_axis_rel_mode s |}.

Definition set_y_cal_pos (v : float) (s : statics) : statics :=
  {| use_pololu_drivers := use_pololu_drivers s;
     current_kernel := current_kernel s;
     kernel_release := kernel_release s; x_cal_pos := x_cal_pos s;
     y_cal_pos := v; z_cal_pos := z_cal_pos s;
     e_axis_rel_mode := e_axis_rel_mode s |}.

Definition set_z_cal_pos (v : float) (s : statics) : statics :=
  {| use_pololu_drivers := use_pololu_drivers s;
     current_kernel := current_kernel s;
     kernel_release := kernel_release s; x_cal_pos := x_cal_pos s;
     y_cal_pos := y_cal_pos s; z_cal_pos := v;
     e_axis_rel_mode := e_axis_rel_mode s |}.

Definition set_e_axis_rel_mode (v : Z) (s : statics) : statics :=
  {| use_pololu_drivers := use_pololu_drivers s;
     current_kernel := current_kernel s;
     kernel_release := kernel_release s; x_cal_pos := x_cal_pos s;
     y_cal_pos := y_cal_pos s; z_cal_pos := z_cal_pos s;
     e_axis_rel_mode := v |}.

(** ** The monad: statics and trace, threaded *)

Record world : Type := { mem : statics; trace : list event }.

Definition initial_world : world := {| mem := initial_statics; trace := [] |}.

Definition M (A : Type) : Type := world -> A * world.

Definition ret {A : Type} (a : A) : M A := fun w => (a, w).

Definition bind {A B : Type} (m : M A) (k : A -> M B) : M B :=
  fun w => let (a, w') := m w in k a w'.

Declare Scope bebopr_scope.
Delimit Scope bebopr_scope with bebopr.
Notation "x <- m ;; k" := (bind m (fun x => k))
  (at level 61, m at next level, right associativity) : bebopr_scope.
Notation "m ;; k" := (bind m (fun _ => k))
  (at level 61, right associativity) : bebopr_scope.
Local Open Scope bebopr_scope.

Definition load {A : Type} (field : statics -> A) : M A :=
  fun w => (field (mem w), w).

Definition store (update : statics -> statics) : M unit :=
  fun w => (tt, {| mem := update (mem w); trace := trace w |}).

(** An external call: its result is read off the history, then the call
    and its result join the history. *)
Definition call {A : Type} (result : list event -> A) (e : A -> event) : M A :=
  fun w =>
    let r := result (trace w) in
    (r, {| mem := mem w; trace := trace w ++ [e r] |}).

Definition fprintf_stderr (text : string) : M unit :=
  call (fun _ => tt) (fun _ => ev_stderr text).

Definition gpio_write_int_value_to_file (file : string) (value : Z) : M unit :=
  call (fun _ => tt) (fun _ => ev_gpio_write_int_value_to_file file value).

Definition gpio_write_value_to_pin_file (pin : Z) (file value : string)
  : M unit :=
  call (fun _ => tt)
       (fun _ => ev_gpio_write_value_to_pin_file pin file value).

(** Result and final world of a run. *)
Definition result_of {A : Type} (m : M A) (w : world) : A := fst (m w).
Definition world_after {A : Type} (m : M A) (w : world) : world := snd (m w).

(** What a run added to the trace of the world it started in. *)
Definition emitted {A : Type} (m : M A) (w : world) : list event :=
  skipn (List.length (trace w)) (trace (world_after m w)).

Section Board.

Variable bc : build_config.
Variable ext : externals.

(** ** Kernel variant detector *)

Definition get_kernel_type : M kernel_type :=
  k <- load current_kernel ;;
  (if kernel_type_eqb k e_kernel_unknown then
     r <- call (uname ext) (fun r => ev_uname (fst r) (snd r)) ;;
     let (rc, u) := (r : Z * utsname) in
     if rc =? 0 then
       (if strncmp (release u) "3.2" 3 =? 0 then
          store (set_current_kernel e_kernel_3_2)
        else if strncmp (release u) "3.8" 3 =? 0 then
          store (set_current_kernel e_kernel_3_8)
        else
          store (set_current_kernel e_kernel_other)) ;;
       store (set_kernel_release (strncpy_terminated (release u) 50))
     else ret tt
   else ret tt) ;;
  load current_kernel.

(** ** Pre-init orchestrator *)

(** The text [options] holds after the conditional [strcat]s. *)
Definition options : string :=
  let o := "" in
  let o := if BONE_ENA_PATCH bc then strcat o "+EnablePatch" else o in
  let o := if BONE_BRIDGE bc then strcat o "+Bridge" else o in
  o.

(** [bebopr_pre_init] from the call of [eeprom_get_step_io_config] on. *)
Definition pre_init_step_io : M Z :=
  result <- call (fun h => eeprom_get_step_io_config ext h (EEPROM_PATH ext))
                 (ev_eeprom_get_step_io_config (EEPROM_PATH ext)) ;;
  (if result =? TB6560_DRIVERS ext then store (set_use_pololu_drivers 0)
   else ret tt) ;;
  pololu <- load use_pololu_drivers ;;
  fprintf_stderr ("Using stepper driver configuration: '"
                  ++ (if negb (pololu =? 0) then "Pololu" else "TB6560")
                  ++ "'" ++ newline) ;;
  ret 0.

(** [bebopr_pre_init] from the call of [analog_config] on; each [goto done]
    is a branch that returns [result]. *)
Definition pre_init_tables : M Z :=
  result <- call (fun h => analog_config ext h (analog_config_data bc)
                             (NR_ITEMS (analog_config_data bc)))
                 (ev_analog_config (analog_config_data bc)
                    (NR_ITEMS (analog_config_data bc))) ;;
  if result <? 0 then
    fprintf_stderr ("analog_config failed!" ++ newline) ;; ret result
  else
  result <- call (fun h => temp_config ext h (temp_config_data bc)
                             (NR_ITEMS (temp_config_data bc)))
                 (ev_temp_config (temp_config_data bc)
                    (NR_ITEMS (temp_config_data bc))) ;;
  if result <? 0 then
    fprintf_stderr ("temp_config failed!" ++ newline) ;; ret result
  else
  result <- call (fun h => pwm_config ext h (pwm_config_data bc)
                             (NR_ITEMS (pwm_config_data bc)))
                 (ev_pwm_config (pwm_config_data bc)
                    (NR_ITEMS (pwm_config_data bc))) ;;
  if result <? 0 then
    fprintf_stderr ("pwm_config failed!" ++ newline) ;; ret result
  else
  result <- call (fun h => heater_config ext h (heater_config_data bc)
                             (NR_ITEMS (heater_config_data bc)))
                 (ev_heater_config (heater_config_data bc)
                    (NR_ITEMS (heater_config_data bc))) ;;
  if result <? 0 then
    fprintf_stderr ("heater_config failed!" ++ newline) ;; ret result
  else
  pre_init_step_io.

Definition bebopr_pre_init : M Z :=
  k <- get_kernel_type ;;
  if kernel_type_eqb k e_kernel_unknown then
    rel <- load kernel_release ;;
    fprintf_stderr ("BeBoPr" ++ options
                    ++ " is not compatible with running on kernel version "
                    ++ rel ++ "." ++ newline) ;;
    ret (-1)
  else
  k <- get_kernel_type ;;
  rel <- load kernel_release ;;
  fprintf_stderr ("BeBoPr" ++ options ++ " configured for '"
                  ++ (if kernel_type_eqb k e_kernel_3_8 then "3.8" else "3.2")
                  ++ "' running on kernel version " ++ rel ++ "." ++ newline) ;;
  bridge_on_3_2 <-
    (if BONE_BRIDGE bc then
       k <- get_kernel_type ;; ret (kernel_type_eqb k e_kernel_3_2)
     else ret false) ;;
  if (bridge_on_3_2 : bool) then
    fprintf_stderr
      ("The Bridge is only supported with a device-tree kernel (3.8+)!"
       ++ newline) ;;
    ret (-1)
  else
  pre_init_tables.

Definition config_use_pololu_drivers : M Z := load use_pololu_drivers.

(** ** Power sequencer *)

Definition bebopr_post_init : M Z :=
  (if BONE_BRIDGE bc || BONE_ENA_PATCH bc then
     k <- get_kernel_type ;;
     (if kernel_type_eqb k e_kernel_3_2 then
        gpio_write_int_value_to_file "export" 66 ;;
        gpio_write_value_to_pin_file 66 "direction" "out"
      else ret tt) ;;
     gpio_write_value_to_pin_file 66 "value" "0"
   else
     k <- get_kernel_type ;;
     (if kernel_type_eqb k e_kernel_3_2 then
        gpio_write_int_value_to_file "export" 38 ;;
        gpio_write_value_to_pin_file 38 "direction" "out" ;;
        gpio_write_int_value_to_file "export" 34 ;;
        gpio_write_value_to_pin_file 34 "direction" "out"
      else ret tt) ;;
     gpio_write_value_to_pin_file 38 "value" "1" ;;
     gpio_write_value_to_pin_file 34 "value" "0") ;;
  fprintf_stderr ("Turned BEBOPR I/O power on" ++ newline) ;;
  ret 0.

Definition bebopr_exit : M unit :=
  (if BONE_BRIDGE bc || BONE_ENA_PATCH bc then
     gpio_write_value_to_pin_file 66 "value" "1" ;;
     k <- get_kernel_type ;;
     if kernel_type_eqb k e_kernel_3_2 then
       gpio_write_value_to_pin_file 66 "direction" "in" ;;
       gpio_write_int_value_to_file "unexport" 66
     else ret tt
   else
     gpio_write_value_to_pin_file 38 "value" "1" ;;
     gpio_write_value_to_pin_file 34 "value" "0" ;;
     k <- get_kernel_type ;;
     if kernel_type_eqb k e_kernel_3_2 then
       gpio_write_value_to_pin_file 38 "direction" "in" ;;
       gpio_write_int_value_to_file "unexport" 38 ;;
       gpio_write_value_to_pin_file 34 "direction" "in" ;;
       gpio_write_int_value_to_file "unexport" 34
     else ret tt) ;;
  fprintf_stderr ("Turned BEBOPR I/O power off" ++ newline).

End Board.

(** ** Axis geometry and kinematics

    The accessors that take [double* pos] are functions of the axis and of
    what [*pos] holds at the call; they return the [int] result together
    with what [*pos] holds afterwards. *)

Definition config_axis_has_min_limit_switch (axis : axis_e) : Z :=
  match axis with
  | x_axis => 1
  | y_axis => 1
  | z_axis => 1
  | _ => 0
  end.

Definition config_axis_has_max_limit_switch (axis : axis_e) : Z :=
  match axis with
  | x_axis => 0
  | y_axis => 0
  | z_axis => 1
  | _ => 0
  end.

Definition config_min_limit_switch_is_active_low (axis : axis_e) : Z :=
  match axis with
  | x_axis => 1
  | y_axis => 1
  | z_axis => 0
  | _ => 0
  end.

Definition config_max_limit_switch_is_active_low (axis : axis_e) : Z :=
  match axis with
  | x_axis => 0
  | y_axis => 0
  | z_axis => 1
  | _ => 0
  end.

(** The branch compiled in is the [#else] one (PRUSA). *)
Definition config_get_step_size (axis : axis_e) : float :=
  match axis with
  | x_axis => 15.0E-6
  | y_axis => 12.5E-6
  | z_axis => 195.3125E-9
  | e_axis => 3.345E-6
  | _ => 0.0
  end.

Definition config_get_max_feed (axis : axis_e) : float :=
  match axis with
  | x_axis => 22500.0
  | y_axis => 16000.0
  | z_axis => 300.0
  | e_axis => 3000.0
  | _ => 0.0
  end.

Definition config_get_max_accel (axis : axis_e) : float :=
  match axis with
  | x_axis => 3.0
  | y_axis => 1.0
  | z_axis => 1.0
  | e_axis => 1.0
  | _ => 0.0
  end.

Definition config_reverse_axis (axis : axis_e) : Z :=
  match axis with
  | x_axis => 1
  | y_axis => 0
  | z_axis => 0
  | e_axis => 1
  | _ => 0
  end.

Definition config_min_soft_limit (axis : axis_e) (pos : float) : Z * float :=
  match axis with
  | x_axis => (1, 0.0%float)
  | y_axis => (1, 0.0%float)
  | z_axis => (1, 0.0%float)
  | _ => (0, pos)
  end.

Definition config_max_soft_limit (axis : axis_e) (pos : float) : Z * float :=
  match axis with
  | x_axis => (1, 215.0%float)
  | y_axis => (1, 200.0%float)
  | z_axis => (1, 60.0%float)
  | _ => (0, pos)
  end.

Definition config_set_cal_pos (axis : axis_e) (pos : float) : M Z :=
  match axis with
  | x_axis => store (set_x_cal_pos pos) ;; ret 1
  | y_axis => store (set_y_cal_pos pos) ;; ret 1
  | z_axis => store (set_z_cal_pos pos) ;; ret 1
  | _ => ret 0
  end.

Definition config_min_switch_pos (axis : axis_e) (pos : float)
  : M (Z * float) :=
  match axis with
  | x_axis => v <- load x_cal_pos ;; ret (1, v)
  | y_axis => v <- load y_cal_pos ;; ret (1, v)
  | z_axis => v <- load z_cal_pos ;; ret (1, v)
  | _ => ret (0, pos)
  end.

Definition config_max_switch_pos (axis : axis_e) (pos : float) : Z * float :=
  match axis with
  | x_axis => (0, pos)
  | y_axis => (0, pos)
  | z_axis => (0, pos)
  | _ => (0, pos)
  end.

Definition config_get_home_release_feed (axis : axis_e) : float :=
  match axis with
  | x_axis => 150.0
  | y_axis => 150.0
  | z_axis => 150.0
  | _ => 0.0
  end.

Definition config_get_home_max_feed (axis : axis_e) : float :=
  match axis with
  | x_axis => 3000.0
  | y_axis => 3000.0
  | z_axis => 450.0
  | _ => 0.0
  end.

Definition config_set_e_axis_mode (relative : Z) : M Z :=
  old <- load e_axis_rel_mode ;;
  store (set_e_axis_rel_mode (if negb (relative =? 0) then 1 else 0)) ;;
  ret old.

Definition config_e_axis_is_always_relative : M Z := load e_axis_rel_mode.

Definition config_keep_alive_char : ascii := ascii_of_nat 10.

(** ** Reading traces *)

(** The four table registrations of [bebopr_pre_init]. *)
Inductive stage : Type :=
| stage_analog
| stage_temp
| stage_pwm
| stage_heater.

Definition stage_order : list stage :=
  [stage_analog; stage_temp; stage_pwm; stage_heater].

Definition stage_name (s : stage) : string :=
  match s with
  | stage_analog => "analog_config"
  | stage_temp => "temp_config"
  | stage_pwm => "pwm_config"
  | stage_heater => "heater_config"
  end.

(** The call a stage makes in a given build, with the result it got. *)
Definition stage_event (bc : build_config) (s : stage) (rc : Z) : event :=
  match s with
  | stage_analog =>
      ev_analog_config (analog_config_data bc)
        (NR_ITEMS (analog_config_data bc)) rc
  | stage_temp =>
      ev_temp_config (temp_config_data bc) (NR_ITEMS (temp_config_data bc)) rc
  | stage_pwm =>
      ev_pwm_config (pwm_config_data bc) (NR_ITEMS (pwm_config_data bc)) rc
  | stage_heater =>
      ev_heater_config (heater_config_data bc)
        (NR_ITEMS (heater_config_data bc)) rc
  end.

(** What the subsystem of a stage returns when it is handed the stage's
    table after the history [h]. *)
Definition stage_result (bc : build_config) (ext : externals) (s : stage)
    (h : list event) : Z :=
  match s with
  | stage_analog =>
      analog_config ext h (analog_config_data bc)
        (NR_ITEMS (analog_config_data bc))
  | stage_temp =>
      temp_config ext h (temp_config_data bc) (NR_ITEMS (temp_config_data bc))
  | stage_pwm =>
      pwm_config ext h (pwm_config_data bc) (NR_ITEMS (pwm_config_data bc))
  | stage_heater =>
      heater_config ext h (heater_config_data bc)
        (NR_ITEMS (heater_config_data bc))
  end.

Definition registration (e : event) : option (stage * Z) :=
  match e with
  | ev_analog_config _ _ rc => Some (stage_analog, rc)
  | ev_temp_config _ _ rc => Some (stage_temp, rc)
  | ev_pwm_config _ _ rc => Some (stage_pwm, rc)
  | ev_heater_config _ _ rc => Some (stage_heater, rc)
  | _ => None
  end.

(** The registrations of a trace, in order, each with its result. *)
Fixpoint registrations (t : list event) : list (stage * Z) :=
  match t with
  | [] => []
  | e :: t' =>
      match registration e with
      | Some r => r :: registrations t'
      | None => registrations t'
      end
  end.

(** The results of the EEPROM reads of a trace. *)
Fixpoint eeprom_reads (t : list event) : list Z :=
  match t with
  | [] => []
  | ev_eeprom_get_step_io_config _ rc :: t' => rc :: eeprom_reads t'
  | _ :: t' => eeprom_reads t'
  end.

(** The diagnostics of a trace. *)
Fixpoint diagnostics (t : list event) : list string :=
  match t with
  | [] => []
  | ev_stderr text :: t' => text :: diagnostics t'
  | _ :: t' => diagnostics t'
  end.

(** How often a trace asks the operating system for its release. *)
Fixpoint uname_queries (t : list event) : nat :=
  match t with
  | [] => O
  | ev_uname _ _ :: t' => S (uname_queries t')
  | _ :: t' => uname_queries t'
  end.

(** The levels a trace writes to GPIO lines: pin and text written to the
    pin's [value] file. *)
Fixpoint level_writes (t : list event) : list (Z * string) :=
  match t with
  | [] => []
  | ev_gpio_write_value_to_pin_file pin file value :: t' =>
      if (file =? "value")%string then (pin, value) :: level_writes t'
      else level_writes t'
  | _ :: t' => level_writes t'
  end.

(** The directions a trace sets: pin and text written to the pin's
    [direction] file. *)
Fixpoint direction_writes (t : list event) : list (Z * string) :=
  match t with
  | [] => []
  | ev_gpio_write_value_to_pin_file pin file value :: t' =>
      if (file =? "direction")%string then (pin, value) :: direction_writes t'
      else direction_writes t'
  | _ :: t' => direction_writes t'
  end.

(** The pins a trace writes to the control file [file] ([export] or
    [unexport]). *)
Fixpoint control_writes (file : string) (t : list event) : list Z :=
  match t with
  | [] => []
  | ev_gpio_write_int_value_to_file f pin :: t' =>
      if (f =? file)%string then pin :: control_writes file t'
      else control_writes file t'
  | _ :: t' => control_writes file t'
  end.

(** The trace holds nothing, or one [uname] query. *)
Definition only_uname (t : list event) : Prop :=
  t = [] \/ exists rc u, t = [ev_uname rc u].

(** The level a line is left at by a trace, if the trace writes it. *)
Definition final_level (pin : Z) (t : list event) : option string :=
  match filter (fun pv => fst pv =? pin) (rev (level_writes t)) with
  | [] => None
  | pv :: _ => Some (snd pv)
  end.

(** The opposite logic level. *)
Definition opposite_level (v : string) : string :=
  if (v =? "0")%string then "1" else "0".

(** ** Properties the specification words *)


Definition named_axes : list axis_e := [x_axis; y_axis; z_axis; e_axis].

(** An accessor with an output parameter reports a defined position on
    each of X, Y, Z and E. *)
Definition defined_on_named_axes (f : axis_e -> float -> Z * float) : Prop :=
  forall axis pos, In axis named_axes -> fst (f axis pos) <> 0.

(** Power-off mirrors power-on: each level written by the first trace is
    answered in the second by the opposite level on the same line. *)
Definition mirrored_levels (on off : list event) : Prop :=
  forall pin v, In (pin, v) (level_writes on) ->
    final_level pin off = Some (opposite_level v).

(** ** Outcomes of the registration sequence

    The ways the part of [bebopr_pre_init] that starts at [analog_config]
    can go, as a relation between the statics at its start, the events it
    adds, the [int] it returns and the statics it leaves. *)

Definition failed_text (s : stage) : string :=
  stage_name s ++ " failed!" ++ newline.

Definition step_io_text (m : statics) : string :=
  "Using stepper driver configuration: '"
  ++ (if negb (use_pololu_drivers m =? 0) then "Pololu" else "TB6560")
  ++ "'" ++ newline.

Definition select_drivers (ext : externals) (step_io : Z) (m : statics)
  : statics :=
  if step_io =? TB6560_DRIVERS ext then set_use_pololu_drivers 0 m else m.

Inductive tables_outcome (bc : build_config) (ext : externals) (m : statics)
  : list event -> Z -> statics -> Prop :=
| analog_rejected (ra : Z) :
    ra < 0 ->
    tables_outcome bc ext m
      [stage_event bc stage_analog ra; ev_stderr (failed_text stage_analog)]
      ra m
| temp_rejected (ra rt : Z) :
    0 <= ra -> rt < 0 ->
    tables_outcome bc ext m
      [stage_event bc stage_analog ra; stage_event bc stage_temp rt;
       ev_stderr (failed_text stage_temp)]
      rt m
| pwm_rejected (ra rt rp : Z) :
    0 <= ra -> 0 <= rt -> rp < 0 ->
    tables_outcome bc ext m
      [stage_event bc stage_analog ra; stage_event bc stage_temp rt;
       stage_event bc stage_pwm rp; ev_stderr (failed_text stage_pwm)]
      rp m
| heater_rejected (ra rt rp rh : Z) :
    0 <= ra -> 0 <= rt -> 0 <= rp -> rh < 0 ->
    tables_outcome bc ext m
      [stage_event bc stage_analog ra; stage_event bc stage_temp rt;
       stage_event bc stage_pwm rp; stage_event bc stage_heater rh;
       ev_stderr (failed_text stage_heater)]
      rh m
| all_accepted (ra rt rp rh step_io : Z) :
    0 <= ra -> 0 <= rt -> 0 <= rp -> 0 <= rh ->
    tables_outcome bc ext m
      [stage_event bc stage_analog ra; stage_event bc stage_temp rt;
       stage_event bc stage_pwm rp; stage_event bc stage_heater rh;
       ev_eeprom_get_step_io_config (EEPROM_PATH ext) step_io;
       ev_stderr (step_io_text (select_drivers ext step_io m))]
      0 (select_drivers ext step_io m).

(** The two diagnostics of the kernel checks. *)
Definition incompatible_text (bc : build_config) (m : statics) : string :=
  "BeBoPr" ++ options bc
  ++ " is not compatible with running on kernel version "
  ++ kernel_release m ++ "." ++ newline.

Definition configured_text (bc : build_config) (m : statics) : string :=
  "BeBoPr" ++ options bc ++ " configured for '"
  ++ (if kernel_type_eqb (current_kernel m) e_kernel_3_8 then "3.8" else "3.2")
  ++ "' running on kernel version " ++ kernel_release m ++ "." ++ newline.

Definition bridge_text : string :=
  "The Bridge is only supported with a device-tree kernel (3.8+)!" ++ newline.

(** ** Sequences of calls into the module

    The entry points that read or write the statics or talk to the world
    outside, as commands, and the run of a list of them one after the
    other. *)

Inductive api_call : Type :=
| call_get_kernel_type
| call_bebopr_pre_init
| call_bebopr_post_init
| call_bebopr_exit
| call_config_use_pololu_drivers
| call_config_set_cal_pos (axis : axis_e) (pos : float)
| call_config_min_switch_pos (axis : axis_e) (pos : float)
| call_config_set_e_axis_mode (relative : Z)
| call_config_e_axis_is_always_relative.

Definition run_call (bc : build_config) (ext : externals) (c : api_call)
  : M unit :=
  match c with
  | call_get_kernel_type => get_kernel_type ext ;; ret tt
  | call_bebopr_pre_init => bebopr_pre_init bc ext ;; ret tt
  | call_bebopr_post_init => bebopr_post_init bc ext ;; ret tt
  | call_bebopr_exit => bebopr_exit bc ext
  | call_config_use_pololu_drivers => config_use_pololu_drivers ;; ret tt
  | call_config_set_cal_pos axis pos => config_set_cal_pos axis pos ;; ret tt
  | call_config_min_switch_pos axis pos =>
      config_min_switch_pos axis pos ;; ret tt
  | call_config_set_e_axis_mode relative =>
      config_set_e_axis_mode relative ;; ret tt
  | call_config_e_axis_is_always_relative =>
      config_e_axis_is_always_relative ;; ret tt
  end.

Fixpoint run_calls (bc : build_config) (ext : externals) (cs : list api_call)
  : M unit :=
  match cs with
  | [] => ret tt
  | c :: cs' => run_call bc ext c ;; run_calls bc ext cs'
  end.

Definition is_set_cal_pos (c : api_call) : bool :=
  match c with
  | call_config_set_cal_pos _ _ => true
  | _ => false
  end.

(** No element of the list equals, by [eqb], a later one. *)
Fixpoint distinctb {A : Type} (eqb : A -> A -> bool) (l : list A) : bool :=
  match l with
  | [] => true
  | x :: l' => negb (existsb (eqb x) l') && distinctb eqb l'
  end.

(** Two tags are the same array when they hold the same text: no two
    [GENERATE_TAG] lines name the same identifier. *)
Definition tag_eqb (a b : tag) : bool := (tag_text a =? tag_text b)%string.

(** The statics a kernel query leaves alone. *)
Definition same_settings (m m' : statics) : Prop :=
  use_pololu_drivers m' = use_pololu_drivers m
  /\ x_cal_pos m' = x_cal_pos m
  /\ y_cal_pos m' = y_cal_pos m
  /\ z_cal_pos m' = z_cal_pos m
  /\ e_axis_rel_mode m' = e_axis_rel_mode m.

(** The statics [bebopr_pre_init] leaves alone. *)
Definition same_positions (m m' : statics) : Prop :=
  x_cal_pos m' = x_cal_pos m
  /\ y_cal_pos m' = y_cal_pos m
  /\ z_cal_pos m' = z_cal_pos m
  /\ e_axis_rel_mode m' = e_axis_rel_mode m.

(** A flag holds 0 or 1. *)
Definition is_flag (v : Z) : Prop := v = 0 \/ v = 1.

(** ** Sample platforms and builds *)

(** A platform whose collaborators answer the same at every call:
    [uname] with [rc] and [rel], the four registrations with [stages], the
    EEPROM read with [step_io].  The driver-type marker and the path are
    sample values. *)
Definition constant_platform (rc : Z) (rel : string) (stages : stage -> Z)
    (step_io : Z) : externals := {|
  uname := fun _ => (rc, {| release := rel |});
  analog_config := fun _ _ _ => stages stage_analog;
  temp_config := fun _ _ _ => stages stage_temp;
  pwm_config := fun _ _ _ => stages stage_pwm;
  heater_config := fun _ _ _ => stages stage_heater;
  eeprom_get_step_io_config := fun _ _ => step_io;
  EEPROM_PATH := "/sys/bus/i2c/devices/1-0054/eeprom";
  TB6560_DRIVERS := 2
|}.

(** A platform on which [uname] fails the first time it is asked and
    reports a 3.8 kernel afterwards. *)
Definition late_uname_platform : externals := {|
  uname := fun h =>
    match uname_queries h with
    | O => (-1, {| release := "" |})
    | S _ => (0, {| release := "3.8.13-bone30" |})
    end;
  analog_config := fun _ _ _ => 0;
  temp_config := fun _ _ _ => 0;
  pwm_config := fun _ _ _ => 0;
  heater_config := fun _ _ _ => 0;
  eeprom_get_step_io_config := fun _ _ => 0;
  EEPROM_PATH := "/sys/bus/i2c/devices/1-0054/eeprom";
  TB6560_DRIVERS := 2
|}.

(** A 3.8 kernel whose PWM driver rejects its table with -5. *)
Definition pwm_rejecting_platform : externals :=
  constant_platform 0 "3.8.13-bone30"
    (fun s => match s with stage_pwm => -5 | _ => 0 end) 0.

(** A 3.8 kernel whose EEPROM read returns [step_io]. *)
Definition step_io_platform (step_io : Z) : externals :=
  constant_platform 0 "3.8.13-bone30" (fun _ => 0) step_io.

(** A release text longer than the 50 characters of [kernel_release]. *)
Definition long_release : string :=
  "3.8.13-bone30-with-a-vendor-suffix-that-does-not-fit-the-buffer".

(** A platform that reports it. *)
Definition long_release_platform : externals :=
  constant_platform 0 long_release (fun _ => 0) 0.

(** A start-up and shut-down with some configuration in between. *)
Definition sample_session : list api_call :=
  [call_bebopr_pre_init; call_config_set_e_axis_mode 7;
   call_bebopr_post_init; call_config_min_switch_pos z_axis 0.0%float;
   call_get_kernel_type; call_bebopr_exit].

(** Stock BeagleBone: neither Bridge nor enable patch. *)
Definition stock_build : build_config := {|
  BONE_ENA_PATCH := false; BONE_BRIDGE := false; BBB := false;
  ADS1X15 := false; LASER_CUTTER := false
|}.

(** BeagleBone Black with the Bridge. *)
Definition bridge_build : build_config := {|
  BONE_ENA_PATCH := false; BONE_BRIDGE := true; BBB := true;
  ADS1X15 := false; LASER_CUTTER := false
|}.

(** A world in which the kernel has been detected as [k]. *)
Definition world_with_kernel (k : kernel_type) (rel : string) : world := {|
  mem := set_kernel_release rel (set_current_kernel k initial_statics);
  trace := []
|}.

(** * Proofs *)

Local Open Scope list_scope.

(** Unfold the monad one layer at a time. *)
Ltac run_step :=
  repeat (progress (unfold bind, call, fprintf_stderr, store, load, ret;
                    cbn [fst snd mem trace])).

Ltac join_trace := rewrite <- ?app_assoc; cbn [app].

(** Close a side condition with the hypothesis that states it. *)
Ltac by_hyp := match goal with H : _ |- _ => exact H end.

Ltac split_on_rejection :=
  match goal with
  | |- context [?x <? 0] =>
      let rc := fresh "rc" in
      set (rc := x) in *; clearbody rc; destruct (Z.ltb_spec rc 0); run_step
  end.

(** ** Traces *)

Lemma skipn_length_app {A : Type} (l t : list A) :
  skipn (List.length l) (l ++ t) = t.
Proof. induction l as [|a l IH]; simpl; auto. Qed.

Lemma emitted_extends {A : Type} (m : M A) (w : world) (t : list event) :
  trace (world_after m w) = trace w ++ t -> emitted m w = t.
Proof. unfold emitted. intros ->. apply skipn_length_app. Qed.


(** ** C strings *)

Lemma char_code_inj (a b : ascii) : char_code a = char_code b -> a = b.
Proof.
  unfold char_code. intros E. apply N2Z.inj in E.
  rewrite <- (ascii_N_embedding a), <- (ascii_N_embedding b). now rewrite E.
Qed.

(** Against a pattern without NUL, [strncmp] over the pattern's length
    answers 0 exactly on the strings that start with the pattern. *)
Lemma strncmp_prefix (p : string) :
  no_nul p ->
  forall s, (strncmp s p (String.length p) =? 0) = prefix p s.
Proof.
  induction p as [|c p IH]; intros Hp s; [destruct s; reflexivity|].
  destruct Hp as [Hc Hp]. cbn [String.length strncmp prefix deref advance].
  destruct s as [|d s]; cbn [deref advance].
  - destruct (Z.eqb_spec 0 (char_code c)) as [E|_]; [congruence|].
    cbn [prefix]. apply Z.eqb_neq. lia.
  - destruct (Z.eqb_spec (char_code d) (char_code c)) as [E|N].
    + apply char_code_inj in E. subst d.
      destruct (Z.eqb_spec (char_code c) 0) as [Z0|_]; [contradiction|].
      cbn [prefix].
      destruct (ascii_dec c c) as [_|N]; [apply IH, Hp | congruence].
    + cbn [prefix]. destruct (ascii_dec c d) as [E|_]; [subst; congruence|].
      apply Z.eqb_neq. lia.
Qed.

Lemma strncmp_3_2 (s : string) : (strncmp s "3.2" 3 =? 0) = prefix "3.2" s.
Proof. apply (strncmp_prefix "3.2"). cbn. repeat split; discriminate. Qed.

Lemma strncmp_3_8 (s : string) : (strncmp s "3.8" 3 =? 0) = prefix "3.8" s.
Proof. apply (strncmp_prefix "3.8"). cbn. repeat split; discriminate. Qed.

(** ** Kernel variant detector *)

Lemma kernel_type_eqb_eq (a b : kernel_type) :
  kernel_type_eqb a b = true <-> a = b.
Proof. destruct a, b; cbn; split; congruence. Qed.

Lemma kernel_type_eqb_neq (a b : kernel_type) :
  kernel_type_eqb a b = false <-> a <> b.
Proof. destruct a, b; cbn; split; congruence. Qed.

(** With a kernel generation in the cache, the call is a read. *)
Lemma get_kernel_type_hit (ext : externals) (w : world) :
  current_kernel (mem w) <> e_kernel_unknown ->
  get_kernel_type ext w = (current_kernel (mem w), w).
Proof.
  intros H. unfold get_kernel_type, bind, load.
  apply kernel_type_eqb_neq in H. rewrite H. destruct w; reflexivity.
Qed.

(** With an empty cache, the call asks the operating system. *)
Lemma get_kernel_type_miss (ext : externals) (w : world) :
  current_kernel (mem w) = e_kernel_unknown ->
  get_kernel_type ext w =
    let rc := fst (uname ext (trace w)) in
    let u := snd (uname ext (trace w)) in
    let k :=
      if rc =? 0 then
        if prefix "3.2" (release u) then e_kernel_3_2
        else if prefix "3.8" (release u) then e_kernel_3_8
        else e_kernel_other
      else e_kernel_unknown in
    (k,
     {| mem :=
          if rc =? 0 then
            set_kernel_release (strncpy_terminated (release u) 50)
              (set_current_kernel k (mem w))
          else mem w;
        trace := trace w ++ [ev_uname rc u] |}).
Proof.
  intros H. unfold get_kernel_type, bind, load, call, store, ret.
  rewrite H. cbn [kernel_type_eqb fst snd mem trace].
  destruct (uname ext (trace w)) as [rc u]. cbn [fst snd].
  rewrite strncmp_3_2, strncmp_3_8.
  destruct (rc =? 0); cbn.
  - destruct (prefix "3.2" (release u)); [reflexivity|].
    destruct (prefix "3.8" (release u)); reflexivity.
  - now rewrite H.
Qed.

(** What a call does to the world, whichever way it goes: the result is
    what the cache holds afterwards, only the cache and the release text
    may change, and the trace grows by at most the [uname] query. *)
Lemma get_kernel_type_run (ext : externals) (w : world) :
  exists m' t,
    get_kernel_type ext w
    = (current_kernel m', {| mem := m'; trace := trace w ++ t |})
    /\ use_pololu_drivers m' = use_pololu_drivers (mem w)
    /\ x_cal_pos m' = x_cal_pos (mem w)
    /\ y_cal_pos m' = y_cal_pos (mem w)
    /\ z_cal_pos m' = z_cal_pos (mem w)
    /\ e_axis_rel_mode m' = e_axis_rel_mode (mem w)
    /\ (t = [] \/ exists rc u, t = [ev_uname rc u]).
Proof.
  destruct (kernel_type_eqb (current_kernel (mem w)) e_kernel_unknown) eqn:E.
  - apply kernel_type_eqb_eq in E. rewrite (get_kernel_type_miss ext w E).
    cbv zeta. destruct (uname ext (trace w)) as [rc u]. cbn [fst snd].
    destruct (rc =? 0).
    + eexists (set_kernel_release _ (set_current_kernel _ (mem w))), _.
      split; [reflexivity|]. cbn. repeat split; eauto.
    + exists (mem w), [ev_uname rc u]. rewrite E. repeat split; eauto.
  - apply kernel_type_eqb_neq in E. rewrite (get_kernel_type_hit ext w E).
    exists (mem w), []. rewrite app_nil_r. destruct w; cbn.
    repeat split; auto.
Qed.

(** C4: on an empty cache, [get_kernel_type] returns 3.2-legacy for a
    release that starts with "3.2", 3.8-device-tree for one that starts
    with "3.8", other for any other release that [uname] delivered, and
    unknown when [uname] failed; in every case the call returns, writes
    no diagnostic, and its only interaction is the one [uname] query. *)
Theorem get_kernel_type_classifies (ext : externals) (w : world) :
  current_kernel (mem w) = e_kernel_unknown ->
  let rc := fst (uname ext (trace w)) in
  let u := snd (uname ext (trace w)) in
  result_of (get_kernel_type ext) w
  = (if rc =? 0 then
       if prefix "3.2" (release u) then e_kernel_3_2
       else if prefix "3.8" (release u) then e_kernel_3_8
       else e_kernel_other
     else e_kernel_unknown)
  /\ emitted (get_kernel_type ext) w = [ev_uname rc u]
  /\ diagnostics (emitted (get_kernel_type ext) w) = [].
Proof.
  intros H rc u.
  assert (T : emitted (get_kernel_type ext) w = [ev_uname rc u]).
  { apply emitted_extends. unfold world_after.
    rewrite (get_kernel_type_miss ext w H). reflexivity. }
  split; [|split].
  - unfold result_of. rewrite (get_kernel_type_miss ext w H). reflexivity.
  - exact T.
  - rewrite T. reflexivity.
Qed.

Lemma get_kernel_type_classifies_witness :
  current_kernel (mem initial_world) = e_kernel_unknown
  /\ result_of
       (get_kernel_type (constant_platform 0 "3.8.13-bone30" (fun _ => 0) 0))
       initial_world
     = e_kernel_3_8.
Proof.
  split.
  - reflexivity.
  - exact (proj1 (get_kernel_type_classifies
                    (constant_platform 0 "3.8.13-bone30" (fun _ => 0) 0)
                    initial_world eq_refl)).
Defined.

(** The four outcomes, run on sample releases. *)
Example get_kernel_type_samples :
  result_of (get_kernel_type (constant_platform 0 "3.2.42" (fun _ => 0) 0))
    initial_world = e_kernel_3_2
  /\ result_of (get_kernel_type (constant_platform 0 "3.8" (fun _ => 0) 0))
       initial_world = e_kernel_3_8
  /\ result_of (get_kernel_type (constant_platform 0 "3.20.1" (fun _ => 0) 0))
       initial_world = e_kernel_3_2
  /\ result_of (get_kernel_type (constant_platform 0 "4.19.94" (fun _ => 0) 0))
       initial_world = e_kernel_other
  /\ result_of (get_kernel_type (constant_platform (-1) "3.8.13" (fun _ => 0) 0))
       initial_world = e_kernel_unknown.
Proof. repeat (split; [reflexivity|]). reflexivity. Qed.


(** A failed first query followed by a successful one: the two calls
    return different kernel generations. *)
Example get_kernel_type_detects_late :
  result_of (get_kernel_type late_uname_platform) initial_world
  = e_kernel_unknown
  /\ result_of (get_kernel_type late_uname_platform)
       (world_after (get_kernel_type late_uname_platform) initial_world)
     = e_kernel_3_8.
Proof. split; reflexivity. Qed.


(** A call that returns unknown found the cache empty and [uname]
    failing; it changed nothing but the trace. *)
Lemma get_kernel_type_unknown (ext : externals) (w : world) :
  result_of (get_kernel_type ext) w = e_kernel_unknown ->
  get_kernel_type ext w
  = (e_kernel_unknown,
     {| mem := mem w;
        trace := trace w ++ [ev_uname (fst (uname ext (trace w)))
                               (snd (uname ext (trace w)))] |}).
Proof.
  unfold result_of.
  destruct (kernel_type_eqb (current_kernel (mem w)) e_kernel_unknown) eqn:E.
  - apply kernel_type_eqb_eq in E. rewrite (get_kernel_type_miss ext w E).
    cbv zeta. cbn [fst].
    destruct (fst (uname ext (trace w)) =? 0); [|reflexivity].
    destruct (prefix "3.2" _); [discriminate|].
    destruct (prefix "3.8" _); discriminate.
  - apply kernel_type_eqb_neq in E. rewrite (get_kernel_type_hit ext w E).
    cbn [fst]. contradiction.
Qed.

(** ** Trace readers distribute over concatenation *)

Lemma registrations_app (t u : list event) :
  registrations (t ++ u) = registrations t ++ registrations u.
Proof.
  induction t as [|e t IH]; [reflexivity|].
  cbn [app registrations]. destruct (registration e); rewrite IH; reflexivity.
Qed.

Lemma eeprom_reads_app (t u : list event) :
  eeprom_reads (t ++ u) = eeprom_reads t ++ eeprom_reads u.
Proof.
  induction t as [|e t IH]; [reflexivity|].
  destruct e; cbn [app eeprom_reads]; rewrite IH; reflexivity.
Qed.

Lemma diagnostics_app (t u : list event) :
  diagnostics (t ++ u) = diagnostics t ++ diagnostics u.
Proof.
  induction t as [|e t IH]; [reflexivity|].
  destruct e; cbn [app diagnostics]; rewrite IH; reflexivity.
Qed.

Lemma level_writes_app (t u : list event) :
  level_writes (t ++ u) = level_writes t ++ level_writes u.
Proof.
  induction t as [|e t IH]; [reflexivity|].
  destruct e; cbn [app level_writes]; rewrite ?IH; try reflexivity.
  destruct (file =? "value")%string; rewrite ?IH; reflexivity.
Qed.

(** The events of a [get_kernel_type] call are invisible to the readers
    of registrations, EEPROM reads, diagnostics and GPIO writes. *)
Lemma only_uname_silent (t : list event) :
  only_uname t ->
  registrations t = [] /\ eeprom_reads t = [] /\ diagnostics t = []
  /\ level_writes t = [] /\ direction_writes t = []
  /\ forall file, control_writes file t = [].
Proof. intros [->|(rc & u & ->)]; repeat split. Qed.

(** ** Pre-init orchestrator *)

(** Every run of the registration sequence is one of the five outcomes. *)
Lemma pre_init_tables_run (bc : build_config) (ext : externals) (w : world) :
  exists t r m',
    pre_init_tables bc ext w = (r, {| mem := m'; trace := trace w ++ t |})
    /\ tables_outcome bc ext (mem w) t r m'.
Proof.
  unfold pre_init_tables, pre_init_step_io. run_step.
  split_on_rejection.
  { eexists _, _, _. split; [join_trace; reflexivity|].
    apply analog_rejected; by_hyp. }
  split_on_rejection.
  { eexists _, _, _. split; [join_trace; reflexivity|].
    apply temp_rejected; by_hyp. }
  split_on_rejection.
  { eexists _, _, _. split; [join_trace; reflexivity|].
    apply pwm_rejected; by_hyp. }
  split_on_rejection.
  { eexists _, _, _. split; [join_trace; reflexivity|].
    apply heater_rejected; by_hyp. }
  match goal with
  | |- context [?x =? TB6560_DRIVERS ext] =>
      set (step_io := x) in *; clearbody step_io
  end.
  assert (O := all_accepted bc ext (mem w) _ _ _ _ step_io H H0 H1 H2).
  unfold select_drivers in O.
  destruct (step_io =? TB6560_DRIVERS ext); run_step;
    (eexists _, _, _; split; [join_trace; reflexivity | exact O]).
Qed.

(** With an unknown kernel generation [bebopr_pre_init] stops after its
    first diagnostic. *)
Lemma pre_init_unknown_run (bc : build_config) (ext : externals) (w : world) :
  result_of (get_kernel_type ext) w = e_kernel_unknown ->
  bebopr_pre_init bc ext w
  = (-1,
     {| mem := mem w;
        trace := trace w ++ [ev_uname (fst (uname ext (trace w)))
                               (snd (uname ext (trace w)));
                             ev_stderr (incompatible_text bc (mem w))] |}).
Proof.
  intros U. unfold bebopr_pre_init. unfold bind at 1.
  rewrite (get_kernel_type_unknown ext w U). cbn [kernel_type_eqb].
  run_step. join_trace. reflexivity.
Qed.

(** With a known kernel generation, the second and third
    [get_kernel_type] of [bebopr_pre_init] read the cache; what follows
    the second diagnostic is decided by the Bridge test. *)
Lemma pre_init_known_run (bc : build_config) (ext : externals) (w : world) :
  result_of (get_kernel_type ext) w <> e_kernel_unknown ->
  exists m1 t0,
    get_kernel_type ext w
    = (current_kernel m1, {| mem := m1; trace := trace w ++ t0 |})
    /\ use_pololu_drivers m1 = use_pololu_drivers (mem w)
    /\ only_uname t0
    /\ bebopr_pre_init bc ext w
       = if BONE_BRIDGE bc && kernel_type_eqb (current_kernel m1) e_kernel_3_2
         then
           (-1,
            {| mem := m1;
               trace := trace w ++ t0 ++ [ev_stderr (configured_text bc m1);
                                          ev_stderr bridge_text] |})
         else
           pre_init_tables bc ext
             {| mem := m1;
                trace := trace w ++ t0 ++ [ev_stderr (configured_text bc m1)] |}.
Proof.
  intros K.
  destruct (get_kernel_type_run ext w) as (m1 & t0 & E & P & _ & _ & _ & _ & T).
  exists m1, t0. repeat split; try assumption.
  unfold result_of in K. rewrite E in K. cbn [fst] in K.
  assert (Hit : forall t, get_kernel_type ext {| mem := m1; trace := t |}
                        = (current_kernel m1, {| mem := m1; trace := t |}))
    by (intros t; now apply (get_kernel_type_hit ext {| mem := m1; trace := t |})).
  unfold bebopr_pre_init. unfold bind at 1. rewrite E.
  apply kernel_type_eqb_neq in K. rewrite K.
  unfold bind at 1. rewrite Hit. run_step.
  destruct (BONE_BRIDGE bc); cbn [andb].
  - run_step. rewrite Hit. run_step.
    destruct (kernel_type_eqb (current_kernel m1) e_kernel_3_2);
      run_step; join_trace; reflexivity.
  - run_step. join_trace. reflexivity.
Qed.

(** Past the kernel checks, [bebopr_pre_init] is its second diagnostic
    followed by one of the five outcomes of the registration sequence. *)
Lemma pre_init_outcome (bc : build_config) (ext : externals) (w : world) :
  result_of (get_kernel_type ext) w <> e_kernel_unknown ->
  BONE_BRIDGE bc
  && kernel_type_eqb (result_of (get_kernel_type ext) w) e_kernel_3_2 = false ->
  exists m1 t0 t r m',
    only_uname t0
    /\ use_pololu_drivers m1 = use_pololu_drivers (mem w)
    /\ bebopr_pre_init bc ext w
       = (r, {| mem := m';
                trace := trace w
                         ++ t0 ++ ev_stderr (configured_text bc m1) :: t |})
    /\ tables_outcome bc ext m1 t r m'.
Proof.
  intros K B.
  destruct (pre_init_known_run bc ext w K) as (m1 & t0 & E & P & T & R).
  unfold result_of in B. rewrite E in B. cbn [fst] in B. rewrite B in R.
  destruct (pre_init_tables_run bc ext
              {| mem := m1;
                 trace := trace w ++ t0 ++ [ev_stderr (configured_text bc m1)] |})
    as (t & r & m' & E2 & O).
  cbn [mem trace] in E2, O.
  exists m1, t0, t, r, m'. repeat split; try assumption.
  rewrite R, E2. join_trace. reflexivity.
Qed.

(** C5: when the kernel generation resolves to unknown, [bebopr_pre_init]
    returns the failure value -1, its one diagnostic is the one about the
    incompatible kernel, and none of [analog_config], [temp_config],
    [pwm_config], [heater_config] is called. *)
Theorem pre_init_unsupported_kernel
    (bc : build_config) (ext : externals) (w : world) :
  result_of (get_kernel_type ext) w = e_kernel_unknown ->
  result_of (bebopr_pre_init bc ext) w = -1
  /\ registrations (emitted (bebopr_pre_init bc ext) w) = []
  /\ diagnostics (emitted (bebopr_pre_init bc ext) w)
     = [incompatible_text bc (mem w)].
Proof.
  intros U. pose proof (pre_init_unknown_run bc ext w U) as R.
  assert (T : emitted (bebopr_pre_init bc ext) w
              = [ev_uname (fst (uname ext (trace w)))
                   (snd (uname ext (trace w)));
                 ev_stderr (incompatible_text bc (mem w))]).
  { apply emitted_extends. unfold world_after. now rewrite R. }
  unfold result_of. rewrite T, R. repeat split.
Qed.

Lemma pre_init_unsupported_kernel_witness :
  result_of (get_kernel_type (constant_platform (-1) "" (fun _ => 0) 0))
    initial_world = e_kernel_unknown
  /\ result_of
       (bebopr_pre_init stock_build (constant_platform (-1) "" (fun _ => 0) 0))
       initial_world = -1.
Proof.
  split.
  - reflexivity.
  - exact (proj1 (pre_init_unsupported_kernel stock_build
                    (constant_platform (-1) "" (fun _ => 0) 0)
                    initial_world eq_refl)).
Defined.

(** C6: in a Bridge build on a 3.2 kernel, [bebopr_pre_init] returns the
    failure value -1 after the diagnostic that the Bridge needs a
    device-tree kernel, and none of the four registrations is called. *)
Theorem pre_init_bridge_on_3_2
    (bc : build_config) (ext : externals) (w : world) :
  BONE_BRIDGE bc = true ->
  result_of (get_kernel_type ext) w = e_kernel_3_2 ->
  result_of (bebopr_pre_init bc ext) w = -1
  /\ registrations (emitted (bebopr_pre_init bc ext) w) = []
  /\ eeprom_reads (emitted (bebopr_pre_init bc ext) w) = []
  /\ diagnostics (emitted (bebopr_pre_init bc ext) w)
     = [configured_text bc (mem (world_after (get_kernel_type ext) w));
        bridge_text].
Proof.
  intros B K.
  assert (K' : result_of (get_kernel_type ext) w <> e_kernel_unknown)
    by (rewrite K; discriminate).
  destruct (pre_init_known_run bc ext w K') as (m1 & t0 & E & _ & T & R).
  unfold result_of in K. rewrite E in K. cbn [fst] in K.
  rewrite B, K in R. cbn [andb kernel_type_eqb] in R.
  assert (Em : emitted (bebopr_pre_init bc ext) w
               = t0 ++ [ev_stderr (configured_text bc m1); ev_stderr bridge_text]).
  { apply emitted_extends. unfold world_after. now rewrite R. }
  destruct (only_uname_silent t0 T) as (Rg & Ee & Dg & _).
  unfold result_of, world_after. rewrite Em, R, E. cbn [fst snd mem].
  rewrite registrations_app, eeprom_reads_app, diagnostics_app, Rg, Ee, Dg.
  repeat split.
Qed.

Lemma pre_init_bridge_on_3_2_witness :
  BONE_BRIDGE bridge_build = true
  /\ result_of (get_kernel_type (constant_platform 0 "3.2.42" (fun _ => 0) 0))
       initial_world = e_kernel_3_2
  /\ result_of
       (bebopr_pre_init bridge_build
          (constant_platform 0 "3.2.42" (fun _ => 0) 0))
       initial_world = -1.
Proof.
  split; [reflexivity|]. split; [reflexivity|].
  exact (proj1 (pre_init_bridge_on_3_2 bridge_build
                  (constant_platform 0 "3.2.42" (fun _ => 0) 0)
                  initial_world eq_refl eq_refl)).
Defined.

(** The registration sequence, call by call: each subsystem is asked on
    the history the calls before it left, and what it answers decides
    whether the next one is asked. *)
Lemma pre_init_tables_exact (bc : build_config) (ext : externals) (w : world) :
  let h0 := trace w in
  let ra := stage_result bc ext stage_analog h0 in
  let h1 := h0 ++ [stage_event bc stage_analog ra] in
  let rt := stage_result bc ext stage_temp h1 in
  let h2 := h1 ++ [stage_event bc stage_temp rt] in
  let rp := stage_result bc ext stage_pwm h2 in
  let h3 := h2 ++ [stage_event bc stage_pwm rp] in
  let rh := stage_result bc ext stage_heater h3 in
  let h4 := h3 ++ [stage_event bc stage_heater rh] in
  let step_io := eeprom_get_step_io_config ext h4 (EEPROM_PATH ext) in
  pre_init_tables bc ext w
  = if ra <? 0 then
      (ra, {| mem := mem w;
              trace := h1 ++ [ev_stderr (failed_text stage_analog)] |})
    else if rt <? 0 then
      (rt, {| mem := mem w;
              trace := h2 ++ [ev_stderr (failed_text stage_temp)] |})
    else if rp <? 0 then
      (rp, {| mem := mem w;
              trace := h3 ++ [ev_stderr (failed_text stage_pwm)] |})
    else if rh <? 0 then
      (rh, {| mem := mem w;
              trace := h4 ++ [ev_stderr (failed_text stage_heater)] |})
    else
      (0, {| mem := select_drivers ext step_io (mem w);
             trace :=
               (h4 ++ [ev_eeprom_get_step_io_config (EEPROM_PATH ext) step_io])
               ++ [ev_stderr (step_io_text (select_drivers ext step_io (mem w)))]
          |}).
Proof.
  cbv zeta. unfold pre_init_tables, pre_init_step_io, stage_result, stage_event.
  run_step.
  repeat match goal with
         | |- context [?x <? 0] =>
             let rc := fresh "rc" in
             set (rc := x) in *; clearbody rc; destruct (rc <? 0); run_step
         end; try reflexivity.
  unfold select_drivers, step_io_text.
  match goal with
  | |- context [?x =? TB6560_DRIVERS ext] =>
      destruct (x =? TB6560_DRIVERS ext)
  end; run_step; reflexivity.
Qed.

(** Past the kernel checks [bebopr_pre_init] is the registration sequence
    run on the history that ends with the second diagnostic. *)
Lemma pre_init_exact (bc : build_config) (ext : externals) (w : world) :
  result_of (get_kernel_type ext) w <> e_kernel_unknown ->
  BONE_BRIDGE bc
  && kernel_type_eqb (result_of (get_kernel_type ext) w) e_kernel_3_2 = false ->
  let w1 := world_after (get_kernel_type ext) w in
  let h0 := trace w1 ++ [ev_stderr (configured_text bc (mem w1))] in
  bebopr_pre_init bc ext w
  = pre_init_tables bc ext {| mem := mem w1; trace := h0 |}
  /\ use_pololu_drivers (mem w1) = use_pololu_drivers (mem w)
  /\ exists t0, only_uname t0 /\ trace w1 = trace w ++ t0.
Proof.
  intros K B w1 h0.
  destruct (pre_init_known_run bc ext w K) as (m1 & t0 & E & P & T & R).
  assert (W1 : w1 = {| mem := m1; trace := trace w ++ t0 |})
    by (unfold w1, world_after; now rewrite E).
  unfold result_of in B. rewrite E in B. cbn [fst] in B. rewrite B in R.
  unfold h0. rewrite W1. cbn [mem trace].
  split; [rewrite R, app_assoc; reflexivity|]. split; [exact P|].
  exists t0. split; [exact T|reflexivity].
Qed.

(** What the trace of a run past the kernel checks shows of the
    registrations: an initial part of the fixed order, each with its own
    table; a negative result is the last one, is returned, and is named
    by the last diagnostic; without a negative result all four are
    there and the run returns 0. *)
Lemma pre_init_registrations_logged
    (bc : build_config) (ext : externals) (w : world) :
  result_of (get_kernel_type ext) w <> e_kernel_unknown ->
  BONE_BRIDGE bc
  && kernel_type_eqb (result_of (get_kernel_type ext) w) e_kernel_3_2 = false ->
  let t := emitted (bebopr_pre_init bc ext) w in
  let r := result_of (bebopr_pre_init bc ext) w in
  (exists n, map fst (registrations t) = firstn n stage_order)
  /\ (forall e s rc,
        In e t -> registration e = Some (s, rc) -> e = stage_event bc s rc)
  /\ (forall s rc,
        In (s, rc) (registrations t) -> rc < 0 ->
        r = rc
        /\ (exists before, registrations t = before ++ [(s, rc)])
        /\ (exists before, diagnostics t = before ++ [failed_text s]))
  /\ ((forall s rc, In (s, rc) (registrations t) -> 0 <= rc) ->
      map fst (registrations t) = stage_order /\ r = 0).
Proof.
  intros K B t r.
  destruct (pre_init_outcome bc ext w K B)
    as (m1 & t0 & t1 & r1 & m' & T & _ & R & O).
  assert (Et : t = t0 ++ ev_stderr (configured_text bc m1) :: t1).
  { apply emitted_extends. unfold world_after. now rewrite R. }
  assert (Er : r = r1) by (unfold r, result_of; now rewrite R).
  destruct (only_uname_silent t0 T) as (Rg & _ & Dg & _).
  assert (Eg : registrations t = registrations t1).
  { rewrite Et, registrations_app, Rg. reflexivity. }
  assert (Ed : diagnostics t = configured_text bc m1 :: diagnostics t1).
  { rewrite Et, diagnostics_app, Dg. reflexivity. }
  assert (Ein : forall e s rc,
             In e t -> registration e = Some (s, rc) -> In e t1).
  { intros e s rc I Q. rewrite Et in I. apply in_app_or in I.
    destruct I as [I|[<-|I]]; [|discriminate Q|exact I].
    destruct T as [->|(c & u & ->)]; [destruct I|].
    destruct I as [<-|[]]. discriminate Q. }
  rewrite Eg, Ed, Er. clear Eg Ed Er Et.
  inversion O; subst; cbn [registrations registration stage_event map fst
                            diagnostics].
  - split; [exists 1%nat; reflexivity|]. split; [|split].
    + intros e s rc I Q. pose proof (Ein e s rc I Q) as J. cbn in J.
      destruct J as [<-|[<-|[]]]; inversion Q; reflexivity.
    + intros s rc [[= <- <-]|[]] _.
      split; [reflexivity|]. split; [exists []; reflexivity|].
      exists [configured_text bc m']. reflexivity.
    + intros A. specialize (A stage_analog r1 (or_introl eq_refl)). lia.
  - split; [exists 2%nat; reflexivity|]. split; [|split].
    + intros e s rc I Q. pose proof (Ein e s rc I Q) as J. cbn in J.
      destruct J as [<-|[<-|[<-|[]]]]; inversion Q; reflexivity.
    + intros s rc [[= <- <-]|[[= <- <-]|[]]] N; [lia|].
      split; [reflexivity|]. split; [exists [(stage_analog, ra)]; reflexivity|].
      exists [configured_text bc m']. reflexivity.
    + intros A. specialize (A stage_temp r1 (or_intror (or_introl eq_refl))).
      lia.
  - split; [exists 3%nat; reflexivity|]. split; [|split].
    + intros e s rc I Q. pose proof (Ein e s rc I Q) as J. cbn in J.
      destruct J as [<-|[<-|[<-|[<-|[]]]]]; inversion Q; reflexivity.
    + intros s rc [[= <- <-]|[[= <- <-]|[[= <- <-]|[]]]] N; [lia|lia|].
      split; [reflexivity|].
      split; [exists [(stage_analog, ra); (stage_temp, rt)]; reflexivity|].
      exists [configured_text bc m']. reflexivity.
    + intros A.
      specialize (A stage_pwm r1 (or_intror (or_intror (or_introl eq_refl)))).
      lia.
  - split; [exists 4%nat; reflexivity|]. split; [|split].
    + intros e s rc I Q. pose proof (Ein e s rc I Q) as J. cbn in J.
      destruct J as [<-|[<-|[<-|[<-|[<-|[]]]]]]; inversion Q; reflexivity.
    + intros s rc [[= <- <-]|[[= <- <-]|[[= <- <-]|[[= <- <-]|[]]]]] N;
        [lia|lia|lia|].
      split; [reflexivity|].
      split; [exists [(stage_analog, ra); (stage_temp, rt); (stage_pwm, rp)];
              reflexivity|].
      exists [configured_text bc m']. reflexivity.
    + intros A.
      specialize (A stage_heater r1
                    (or_intror (or_intror (or_intror (or_introl eq_refl))))).
      lia.
  - split; [exists 4%nat; reflexivity|]. split; [|split].
    + intros e s rc I Q. pose proof (Ein e s rc I Q) as J. cbn in J.
      destruct J as [<-|[<-|[<-|[<-|[<-|[<-|[]]]]]]]; inversion Q; reflexivity.
    + intros s rc [[= <- <-]|[[= <- <-]|[[= <- <-]|[[= <- <-]|[]]]]] N; lia.
    + intros _. split; reflexivity.
Qed.

(** C7: past the kernel checks, [bebopr_pre_init] asks [analog_config],
    [temp_config], [pwm_config] and [heater_config] in that order, each
    with its own table and on the history the calls before it left; the
    first of them that answers with a negative value is the last one
    asked, its answer is what [bebopr_pre_init] returns and the last
    diagnostic names its stage; when none answers with a negative value
    all four are asked and [bebopr_pre_init] returns 0. *)
Theorem pre_init_registration_order
    (bc : build_config) (ext : externals) (w : world) :
  result_of (get_kernel_type ext) w <> e_kernel_unknown ->
  BONE_BRIDGE bc
  && kernel_type_eqb (result_of (get_kernel_type ext) w) e_kernel_3_2 = false ->
  let t := emitted (bebopr_pre_init bc ext) w in
  let r := result_of (bebopr_pre_init bc ext) w in
  let w1 := world_after (get_kernel_type ext) w in
  let h0 := trace w1 ++ [ev_stderr (configured_text bc (mem w1))] in
  let ra := stage_result bc ext stage_analog h0 in
  let h1 := h0 ++ [stage_event bc stage_analog ra] in
  let rt := stage_result bc ext stage_temp h1 in
  let h2 := h1 ++ [stage_event bc stage_temp rt] in
  let rp := stage_result bc ext stage_pwm h2 in
  let h3 := h2 ++ [stage_event bc stage_pwm rp] in
  let rh := stage_result bc ext stage_heater h3 in
  (exists n, map fst (registrations t) = firstn n stage_order)
  /\ (forall e s rc,
        In e t -> registration e = Some (s, rc) -> e = stage_event bc s rc)
  /\ (forall s rc,
        In (s, rc) (registrations t) -> rc < 0 ->
        r = rc
        /\ (exists before, registrations t = before ++ [(s, rc)])
        /\ (exists before, diagnostics t = before ++ [failed_text s]))
  /\ ((forall s rc, In (s, rc) (registrations t) -> 0 <= rc) ->
      map fst (registrations t) = stage_order /\ r = 0)
  /\ registrations t
     = (stage_analog, ra)
       :: (if ra <? 0 then [] else
           (stage_temp, rt)
           :: (if rt <? 0 then [] else
               (stage_pwm, rp)
               :: (if rp <? 0 then [] else [(stage_heater, rh)])))
  /\ r = (if ra <? 0 then ra else if rt <? 0 then rt
          else if rp <? 0 then rp else if rh <? 0 then rh else 0)
  /\ exists rest,
       trace (world_after (bebopr_pre_init bc ext) w)
       = h0 ++ map (fun sr => stage_event bc (fst sr) (snd sr))
                 (registrations t) ++ rest.
Proof.
  intros K B t r w1 h0 ra h1 rt h2 rp h3 rh.
  destruct (pre_init_registrations_logged bc ext w K B) as (O1 & O2 & O3 & O4).
  split; [exact O1|]. split; [exact O2|]. split; [exact O3|].
  split; [exact O4|]. clear O1 O2 O3 O4.
  destruct (pre_init_exact bc ext w K B) as (R & _ & t0 & T & Tr).
  fold w1 in R, Tr. fold h0 in R.
  pose proof (pre_init_tables_exact bc ext {| mem := mem w1; trace := h0 |})
    as X.
  cbn [mem trace] in X. fold ra h1 rt h2 rp h3 rh in X.
  rewrite X in R. clear X.
  destruct (only_uname_silent t0 T) as (Rg0 & _).
  assert (Er : r = fst (bebopr_pre_init bc ext w)) by reflexivity.
  assert (Ew : trace (world_after (bebopr_pre_init bc ext) w)
               = trace (snd (bebopr_pre_init bc ext w))) by reflexivity.
  assert (Et : forall ev,
             trace (snd (bebopr_pre_init bc ext w)) = h0 ++ ev ->
             t = t0 ++ ev_stderr (configured_text bc (mem w1)) :: ev).
  { intros ev H. apply emitted_extends. unfold world_after. rewrite H.
    unfold h0. rewrite Tr, <- !app_assoc. reflexivity. }
  rewrite Er, Ew.
  destruct (ra <? 0);
    [|destruct (rt <? 0); [|destruct (rp <? 0); [|destruct (rh <? 0)]]];
    rewrite R; cbn [fst snd trace];
    (erewrite (Et _)
       by (rewrite R; cbn [snd trace]; unfold h3, h2, h1;
           rewrite <- ?app_assoc; cbn [app]; reflexivity));
    rewrite registrations_app, Rg0;
    cbn [app registrations registration stage_event map fst snd];
    (split; [reflexivity|]; split; [reflexivity|]; eexists;
     unfold h3, h2, h1; rewrite <- ?app_assoc; cbn [app]; reflexivity).
Qed.

Lemma pre_init_registration_order_witness :
  result_of (get_kernel_type pwm_rejecting_platform) initial_world
  <> e_kernel_unknown
  /\ BONE_BRIDGE stock_build
     && kernel_type_eqb
          (result_of (get_kernel_type pwm_rejecting_platform) initial_world)
          e_kernel_3_2 = false
  /\ result_of (bebopr_pre_init stock_build pwm_rejecting_platform)
       initial_world = -5
  /\ registrations
       (emitted (bebopr_pre_init stock_build pwm_rejecting_platform)
          initial_world)
     = [(stage_analog, 0); (stage_temp, 0); (stage_pwm, -5)].
Proof.
  assert (K : result_of (get_kernel_type pwm_rejecting_platform) initial_world
              <> e_kernel_unknown) by (vm_compute; discriminate).
  assert (B : BONE_BRIDGE stock_build
              && kernel_type_eqb
                   (result_of (get_kernel_type pwm_rejecting_platform)
                      initial_world)
                   e_kernel_3_2 = false) by reflexivity.
  split; [exact K|]. split; [exact B|].
  destruct (pre_init_registration_order stock_build pwm_rejecting_platform
              initial_world K B) as (_ & _ & _ & _ & Asked & Returned & _).
  split; [exact Returned|exact Asked].
Defined.

(** C8: from the initial value of [use_pololu_drivers], a
    [bebopr_pre_init] that passes the kernel checks and whose four
    registrations are accepted calls [eeprom_get_step_io_config] with
    [EEPROM_PATH] once, right after the heater registration, and returns
    0 whatever the call returned; afterwards [config_use_pololu_drivers]
    returns 0 when the call returned [TB6560_DRIVERS] and 1 for every
    other value, a failed read included. *)
Theorem pre_init_selects_drivers
    (bc : build_config) (ext : externals) (w : world) :
  use_pololu_drivers (mem w) = 1 ->
  result_of (get_kernel_type ext) w <> e_kernel_unknown ->
  BONE_BRIDGE bc
  && kernel_type_eqb (result_of (get_kernel_type ext) w) e_kernel_3_2 = false ->
  (forall s rc,
     In (s, rc) (registrations (emitted (bebopr_pre_init bc ext) w)) ->
     0 <= rc) ->
  let w1 := world_after (get_kernel_type ext) w in
  let h0 := trace w1 ++ [ev_stderr (configured_text bc (mem w1))] in
  let ra := stage_result bc ext stage_analog h0 in
  let h1 := h0 ++ [stage_event bc stage_analog ra] in
  let rt := stage_result bc ext stage_temp h1 in
  let h2 := h1 ++ [stage_event bc stage_temp rt] in
  let rp := stage_result bc ext stage_pwm h2 in
  let h3 := h2 ++ [stage_event bc stage_pwm rp] in
  let rh := stage_result bc ext stage_heater h3 in
  let h4 := h3 ++ [stage_event bc stage_heater rh] in
  let step_io := eeprom_get_step_io_config ext h4 (EEPROM_PATH ext) in
  result_of (bebopr_pre_init bc ext) w = 0
  /\ eeprom_reads (emitted (bebopr_pre_init bc ext) w) = [step_io]
  /\ In (ev_eeprom_get_step_io_config (EEPROM_PATH ext) step_io)
       (emitted (bebopr_pre_init bc ext) w)
  /\ result_of config_use_pololu_drivers
       (world_after (bebopr_pre_init bc ext) w)
     = (if step_io =? TB6560_DRIVERS ext then 0 else 1)
  /\ exists rest,
       trace (world_after (bebopr_pre_init bc ext) w)
       = h4 ++ ev_eeprom_get_step_io_config (EEPROM_PATH ext) step_io :: rest.
Proof.
  intros P K B A w1 h0 ra h1 rt h2 rp h3 rh h4 step_io.
  destruct (pre_init_exact bc ext w K B) as (R & P1 & t0 & T & Tr).
  fold w1 in R, Tr, P1. fold h0 in R.
  pose proof (pre_init_tables_exact bc ext {| mem := mem w1; trace := h0 |})
    as X.
  cbn [mem trace] in X. fold ra h1 rt h2 rp h3 rh h4 step_io in X.
  rewrite X in R. clear X.
  destruct (only_uname_silent t0 T) as (Rg0 & Ee0 & _).
  assert (Et : forall ev,
             trace (snd (bebopr_pre_init bc ext w)) = h0 ++ ev ->
             emitted (bebopr_pre_init bc ext) w
             = t0 ++ ev_stderr (configured_text bc (mem w1)) :: ev).
  { intros ev H. apply emitted_extends. unfold world_after. rewrite H.
    unfold h0. rewrite Tr, <- !app_assoc. reflexivity. }
  unfold result_of, world_after.
  destruct (Z.ltb_spec ra 0) as [Na|Na];
    [|destruct (Z.ltb_spec rt 0) as [Nt|Nt];
      [|destruct (Z.ltb_spec rp 0) as [Np|Np];
        [|destruct (Z.ltb_spec rh 0) as [Nh|Nh]]]];
    (erewrite (Et _) in A |- *
       by (rewrite R; cbn [snd trace]; unfold h4, h3, h2, h1;
           rewrite <- ?app_assoc; cbn [app]; reflexivity));
    rewrite registrations_app, Rg0 in A;
    cbn [app registrations registration stage_event] in A.
  - specialize (A stage_analog ra (or_introl eq_refl)). lia.
  - specialize (A stage_temp rt (or_intror (or_introl eq_refl))). lia.
  - specialize (A stage_pwm rp (or_intror (or_intror (or_introl eq_refl)))).
    lia.
  - specialize (A stage_heater rh
                  (or_intror (or_intror (or_intror (or_introl eq_refl))))).
    lia.
  - rewrite R. cbn [fst snd mem trace]. rewrite eeprom_reads_app, Ee0.
    split; [reflexivity|]. split; [reflexivity|]. split; [|split].
    + apply in_or_app. right. cbn. auto 10.
    + unfold config_use_pololu_drivers, load, select_drivers. cbn [fst mem].
      destruct (step_io =? TB6560_DRIVERS ext); cbn; congruence.
    + eexists. rewrite <- app_assoc. reflexivity.
Qed.

Lemma pre_init_selects_drivers_witness :
  use_pololu_drivers (mem initial_world) = 1
  /\ (result_of (bebopr_pre_init stock_build (step_io_platform 2))
        initial_world = 0
      /\ eeprom_reads
           (emitted (bebopr_pre_init stock_build (step_io_platform 2))
              initial_world) = [2]
      /\ result_of config_use_pololu_drivers
           (world_after (bebopr_pre_init stock_build (step_io_platform 2))
              initial_world) = 0)
  /\ (result_of (bebopr_pre_init stock_build (step_io_platform (-1)))
        initial_world = 0
      /\ eeprom_reads
           (emitted (bebopr_pre_init stock_build (step_io_platform (-1)))
              initial_world) = [-1]
      /\ result_of config_use_pololu_drivers
           (world_after (bebopr_pre_init stock_build (step_io_platform (-1)))
              initial_world) = 1).
Proof.
  assert (K : forall v,
             result_of (get_kernel_type (step_io_platform v)) initial_world
             <> e_kernel_unknown) by (intros v; vm_compute; discriminate).
  assert (A2 : forall s rc,
             In (s, rc)
               (registrations
                  (emitted (bebopr_pre_init stock_build (step_io_platform 2))
                     initial_world)) ->
             0 <= rc).
  { vm_compute. intros s rc [E|[E|[E|[E|[]]]]]; inversion E; discriminate. }
  assert (A1 : forall s rc,
             In (s, rc)
               (registrations
                  (emitted
                     (bebopr_pre_init stock_build (step_io_platform (-1)))
                     initial_world)) ->
             0 <= rc).
  { vm_compute. intros s rc [E|[E|[E|[E|[]]]]]; inversion E; discriminate. }
  split; [reflexivity|]. split.
  - destruct (pre_init_selects_drivers stock_build (step_io_platform 2)
                initial_world eq_refl (K 2) eq_refl A2)
      as (Ok & Read & _ & Selected & _).
    split; [exact Ok|]. split; [exact Read|exact Selected].
  - destruct (pre_init_selects_drivers stock_build (step_io_platform (-1))
                initial_world eq_refl (K (-1)) eq_refl A1)
      as (Ok & Read & _ & Selected & _).
    split; [exact Ok|]. split; [exact Read|exact Selected].
Defined.

(** Reads that do not return the marker, a failed read (-1) among them,
    leave the Pololu personality selected; [bebopr_pre_init] returns 0. *)
Example pre_init_keeps_pololu :
  bebopr_pre_init stock_build (step_io_platform (-1)) initial_world
  = (0, world_after (bebopr_pre_init stock_build (step_io_platform (-1)))
          initial_world)
  /\ result_of config_use_pololu_drivers
       (world_after (bebopr_pre_init stock_build (step_io_platform (-1)))
          initial_world) = 1
  /\ result_of config_use_pololu_drivers
       (world_after (bebopr_pre_init stock_build (step_io_platform 1))
          initial_world) = 1.
Proof. repeat (split; [reflexivity|]). reflexivity. Qed.

(** ** Calibration positions *)

(** C9: on X, Y and Z [config_set_cal_pos] returns 1 and the next
    [config_min_switch_pos] of that axis returns 1 and the value written,
    whatever was stored before, so of two writes the second one is read
    back; on every other axis [config_set_cal_pos] returns 0 and changes
    nothing. *)
Theorem set_cal_pos_last_write_wins
    (axis : axis_e) (v v' pos : float) (w : world) :
  match axis with
  | x_axis | y_axis | z_axis =>
      result_of (config_set_cal_pos axis v) w = 1
      /\ result_of (config_min_switch_pos axis pos)
           (world_after (config_set_cal_pos axis v) w) = (1, v)
      /\ result_of (config_min_switch_pos axis pos)
           (world_after (config_set_cal_pos axis v')
              (world_after (config_set_cal_pos axis v) w)) = (1, v')
  | e_axis | other_axis _ => config_set_cal_pos axis v w = (0, w)
  end.
Proof. destruct axis; repeat split. Qed.

(** A write to one axis leaves the positions of the other two alone. *)
Lemma set_cal_pos_other_axes (v pos : float) (w : world) :
  result_of (config_min_switch_pos y_axis pos)
    (world_after (config_set_cal_pos x_axis v) w)
  = result_of (config_min_switch_pos y_axis pos) w
  /\ result_of (config_min_switch_pos z_axis pos)
       (world_after (config_set_cal_pos x_axis v) w)
     = result_of (config_min_switch_pos z_axis pos) w
  /\ result_of (config_min_switch_pos x_axis pos)
       (world_after (config_set_cal_pos z_axis v) w)
     = result_of (config_min_switch_pos x_axis pos) w.
Proof. repeat split. Qed.

(** C10: before any [config_set_cal_pos], [config_min_switch_pos] returns
    (1, 0.0) for X and for Y and (1, -2.7955E-3) for Z, a value that is
    not zero and lies below zero. *)
Theorem initial_calibration_positions (pos : float) :
  result_of (config_min_switch_pos x_axis pos) initial_world = (1, 0.0%float)
  /\ result_of (config_min_switch_pos y_axis pos) initial_world
     = (1, 0.0%float)
  /\ result_of (config_min_switch_pos z_axis pos) initial_world
     = (1, (-2.7955E-3)%float)
  /\ z_cal_pos initial_statics <> 0.0%float
  /\ PrimFloat.ltb (z_cal_pos initial_statics) 0.0 = true.
Proof.
  repeat (split; [reflexivity|]). split; [|reflexivity].
  intros E.
  assert (L : PrimFloat.ltb (z_cal_pos initial_statics) 0.0
              = PrimFloat.ltb 0.0 0.0) by (rewrite E; reflexivity).
  vm_compute in L. discriminate L.
Qed.

(** ** Axis accessors *)

(** C3, as the specification states it, fails on the E axis: the minimum
    soft limit is not defined there. *)
Lemma soft_limit_undefined_on_e_axis :
  ~ defined_on_named_axes config_min_soft_limit.
Proof.
  intros H. apply (H e_axis 0.0%float); [|reflexivity].
  unfold named_axes. cbn. auto.
Qed.

(** C3 (amended): every per-axis accessor returns a value on every axis.
    On X, Y, Z and E, in that order, the values are the constants listed
    here: the soft limits and the minimum switch position are defined on
    X, Y and Z and not on E, the maximum switch position is defined on no
    axis, and the homing feeds and limit-switch flags of E are 0.  On any
    other axis every accessor returns 0, 0.0, or "not defined" with the
    output position as it was. *)
Theorem axis_accessors_total (pos : float) (w : world) (n : Z) :
  (map config_axis_has_min_limit_switch named_axes = [1; 1; 1; 0]
   /\ map config_axis_has_max_limit_switch named_axes = [0; 0; 1; 0]
   /\ map config_min_limit_switch_is_active_low named_axes = [1; 1; 0; 0]
   /\ map config_max_limit_switch_is_active_low named_axes = [0; 0; 1; 0]
   /\ map config_get_step_size named_axes
      = [15.0E-6; 12.5E-6; 195.3125E-9; 3.345E-6]%float
   /\ map config_get_max_feed named_axes
      = [22500.0; 16000.0; 300.0; 3000.0]%float
   /\ map config_get_max_accel named_axes = [3.0; 1.0; 1.0; 1.0]%float
   /\ map config_reverse_axis named_axes = [1; 0; 0; 1]
   /\ map (fun axis => config_min_soft_limit axis pos) named_axes
      = [(1, 0.0%float); (1, 0.0%float); (1, 0.0%float); (0, pos)]
   /\ map (fun axis => config_max_soft_limit axis pos) named_axes
      = [(1, 215.0%float); (1, 200.0%float); (1, 60.0%float); (0, pos)]
   /\ map (fun axis => result_of (config_min_switch_pos axis pos) w) named_axes
      = [(1, x_cal_pos (mem w)); (1, y_cal_pos (mem w));
         (1, z_cal_pos (mem w)); (0, pos)]
   /\ map (fun axis => config_max_switch_pos axis pos) named_axes
      = [(0, pos); (0, pos); (0, pos); (0, pos)]
   /\ map config_get_home_release_feed named_axes
      = [150.0; 150.0; 150.0; 0.0]%float
   /\ map config_get_home_max_feed named_axes
      = [3000.0; 3000.0; 450.0; 0.0]%float)
  /\ (config_axis_has_min_limit_switch (other_axis n) = 0
      /\ config_axis_has_max_limit_switch (other_axis n) = 0
      /\ config_min_limit_switch_is_active_low (other_axis n) = 0
      /\ config_max_limit_switch_is_active_low (other_axis n) = 0
      /\ config_get_step_size (other_axis n) = 0.0%float
      /\ config_get_max_feed (other_axis n) = 0.0%float
      /\ config_get_max_accel (other_axis n) = 0.0%float
      /\ config_reverse_axis (other_axis n) = 0
      /\ config_min_soft_limit (other_axis n) pos = (0, pos)
      /\ config_max_soft_limit (other_axis n) pos = (0, pos)
      /\ config_min_switch_pos (other_axis n) pos w = ((0, pos), w)
      /\ config_max_switch_pos (other_axis n) pos = (0, pos)
      /\ config_get_home_release_feed (other_axis n) = 0.0%float
      /\ config_get_home_max_feed (other_axis n) = 0.0%float).
Proof. repeat split. Qed.

(** The maximum switch position is not defined on X either. *)
Example max_switch_pos_undefined_on_x_axis :
  config_max_switch_pos x_axis 0.0%float = (0, 0.0%float).
Proof. reflexivity. Qed.

(** ** Power sequencer *)

(** What [bebopr_post_init] adds to the trace: the [uname] query if the
    cache was empty, the export and direction writes on a 3.2 kernel, the
    level writes, the diagnostic. *)
Lemma post_init_run (bc : build_config) (ext : externals) (w : world) :
  exists m1 t0,
    only_uname t0
    /\ get_kernel_type ext w
       = (current_kernel m1, {| mem := m1; trace := trace w ++ t0 |})
    /\ bebopr_post_init bc ext w
       = (0,
          {| mem := m1;
             trace :=
               trace w ++ t0
               ++ (if kernel_type_eqb (current_kernel m1) e_kernel_3_2 then
                     if BONE_BRIDGE bc || BONE_ENA_PATCH bc then
                       [ev_gpio_write_int_value_to_file "export" 66;
                        ev_gpio_write_value_to_pin_file 66 "direction" "out"]
                     else
                       [ev_gpio_write_int_value_to_file "export" 38;
                        ev_gpio_write_value_to_pin_file 38 "direction" "out";
                        ev_gpio_write_int_value_to_file "export" 34;
                        ev_gpio_write_value_to_pin_file 34 "direction" "out"]
                   else [])
               ++ (if BONE_BRIDGE bc || BONE_ENA_PATCH bc then
                     [ev_gpio_write_value_to_pin_file 66 "value" "0"]
                   else
                     [ev_gpio_write_value_to_pin_file 38 "value" "1";
                      ev_gpio_write_value_to_pin_file 34 "value" "0"])
               ++ [ev_stderr ("Turned BEBOPR I/O power on" ++ newline)] |}).
Proof.
  destruct (get_kernel_type_run ext w) as (m1 & t0 & E & _ & _ & _ & _ & _ & T).
  exists m1, t0. split; [exact T|]. split; [exact E|].
  unfold bebopr_post_init.
  destruct (BONE_BRIDGE bc || BONE_ENA_PATCH bc);
    unfold bind at 1 2; rewrite E;
    destruct (kernel_type_eqb (current_kernel m1) e_kernel_3_2);
    unfold gpio_write_int_value_to_file, gpio_write_value_to_pin_file;
    run_step; join_trace; reflexivity.
Qed.

(** What [bebopr_exit] adds to the trace when the kernel generation is in
    the cache, as it is after [bebopr_post_init] on a detected kernel. *)
Lemma exit_run (bc : build_config) (ext : externals) (w : world) :
  current_kernel (mem w) <> e_kernel_unknown ->
  bebopr_exit bc ext w
  = (tt,
     {| mem := mem w;
        trace :=
          trace w
          ++ (if BONE_BRIDGE bc || BONE_ENA_PATCH bc then
                [ev_gpio_write_value_to_pin_file 66 "value" "1"]
              else
                [ev_gpio_write_value_to_pin_file 38 "value" "1";
                 ev_gpio_write_value_to_pin_file 34 "value" "0"])
          ++ (if kernel_type_eqb (current_kernel (mem w)) e_kernel_3_2 then
                if BONE_BRIDGE bc || BONE_ENA_PATCH bc then
                  [ev_gpio_write_value_to_pin_file 66 "direction" "in";
                   ev_gpio_write_int_value_to_file "unexport" 66]
                else
                  [ev_gpio_write_value_to_pin_file 38 "direction" "in";
                   ev_gpio_write_int_value_to_file "unexport" 38;
                   ev_gpio_write_value_to_pin_file 34 "direction" "in";
                   ev_gpio_write_int_value_to_file "unexport" 34]
              else [])
          ++ [ev_stderr ("Turned BEBOPR I/O power off" ++ newline)] |}).
Proof.
  intros K.
  assert (Hit : forall t, get_kernel_type ext {| mem := mem w; trace := t |}
                          = (current_kernel (mem w),
                             {| mem := mem w; trace := t |}))
    by (intros t;
        now apply (get_kernel_type_hit ext {| mem := mem w; trace := t |})).
  unfold bebopr_exit.
  destruct (BONE_BRIDGE bc || BONE_ENA_PATCH bc);
    unfold gpio_write_int_value_to_file, gpio_write_value_to_pin_file;
    run_step; rewrite Hit;
    destruct (kernel_type_eqb (current_kernel (mem w)) e_kernel_3_2);
    run_step; join_trace; reflexivity.
Qed.

(** [bebopr_exit] from any world: the level writes come first, then the
    [uname] query if the cache is empty. *)
Lemma exit_run_any (bc : build_config) (ext : externals) (w : world) :
  exists m1 t0 t1,
    only_uname t0
    /\ level_writes t1 = []
    /\ bebopr_exit bc ext w
       = (tt,
          {| mem := m1;
             trace :=
               trace w
               ++ (if BONE_BRIDGE bc || BONE_ENA_PATCH bc then
                     [ev_gpio_write_value_to_pin_file 66 "value" "1"]
                   else
                     [ev_gpio_write_value_to_pin_file 38 "value" "1";
                      ev_gpio_write_value_to_pin_file 34 "value" "0"])
               ++ t0 ++ t1 |}).
Proof.
  unfold bebopr_exit.
  destruct (BONE_BRIDGE bc || BONE_ENA_PATCH bc);
    unfold gpio_write_int_value_to_file, gpio_write_value_to_pin_file;
    run_step;
    match goal with
    | |- context [get_kernel_type ext ?w1] =>
        destruct (get_kernel_type_run ext w1)
          as (m1 & t0 & E & _ & _ & _ & _ & _ & T);
        rewrite E
    end;
    exists m1, t0;
    destruct (kernel_type_eqb (current_kernel m1) e_kernel_3_2);
    run_step;
    (eexists; split; [exact T|]; split; [|join_trace; reflexivity]);
    reflexivity.
Qed.

Lemma control_writes_app (file : string) (t u : list event) :
  control_writes file (t ++ u) = control_writes file t ++ control_writes file u.
Proof.
  induction t as [|e t IH]; [reflexivity|].
  destruct e; cbn [app control_writes]; rewrite ?IH; try reflexivity.
  destruct (file0 =? file)%string; rewrite ?IH; reflexivity.
Qed.

(** C1 fails on the stock build (neither Bridge nor enable patch): from
    any world and on any platform, [bebopr_exit] writes to lines 38 and
    34 the very levels [bebopr_post_init] wrote, "1" and "0", so neither
    line is taken back to the opposite level. *)
Theorem power_cycle_stock_not_mirrored (ext : externals) (w : world) :
  let on := emitted (bebopr_post_init stock_build ext) w in
  let off :=
    emitted (bebopr_exit stock_build ext)
      (world_after (bebopr_post_init stock_build ext) w) in
  level_writes on = [(38, "1"); (34, "0")]
  /\ level_writes off = [(38, "1"); (34, "0")]
  /\ final_level 38 off = Some "1"
  /\ final_level 34 off = Some "0"
  /\ ~ mirrored_levels on off.
Proof.
  intros on off.
  destruct (post_init_run stock_build ext w) as (m1 & t0 & T & _ & R).
  cbn [stock_build BONE_BRIDGE BONE_ENA_PATCH orb] in R.
  assert (On : level_writes on = [(38, "1"); (34, "0")]).
  { unfold on. erewrite emitted_extends
      by (unfold world_after; rewrite R; reflexivity).
    destruct (only_uname_silent t0 T) as (_ & _ & _ & L & _).
    rewrite !level_writes_app, L.
    destruct (kernel_type_eqb (current_kernel m1) e_kernel_3_2); reflexivity. }
  destruct (exit_run_any stock_build ext
              (world_after (bebopr_post_init stock_build ext) w))
    as (m2 & u0 & u1 & U & L1 & X).
  cbn [stock_build BONE_BRIDGE BONE_ENA_PATCH orb] in X.
  assert (Off : level_writes off = [(38, "1"); (34, "0")]).
  { unfold off. erewrite emitted_extends
      by (unfold world_after at 1; rewrite X; reflexivity).
    destruct (only_uname_silent u0 U) as (_ & _ & _ & L & _).
    rewrite !level_writes_app, L, L1. reflexivity. }
  assert (F38 : final_level 38 off = Some "1")
    by (unfold final_level; rewrite Off; reflexivity).
  assert (F34 : final_level 34 off = Some "0")
    by (unfold final_level; rewrite Off; reflexivity).
  repeat split; try assumption.
  intros M. specialize (M 38 "1"). rewrite On, F38 in M.
  specialize (M (or_introl eq_refl)). discriminate M.
Qed.

(** X19: the sibling branch does mirror: with the Bridge or the enable patch,
    line 66 is written "0" by [bebopr_post_init] and "1" by
    [bebopr_exit]. *)
Lemma power_cycle_single_line_mirrored
    (bc : build_config) (ext : externals) (w : world) :
  BONE_BRIDGE bc || BONE_ENA_PATCH bc = true ->
  let on := emitted (bebopr_post_init bc ext) w in
  let off :=
    emitted (bebopr_exit bc ext) (world_after (bebopr_post_init bc ext) w) in
  level_writes on = [(66, "0")]
  /\ level_writes off = [(66, "1")]
  /\ mirrored_levels on off.
Proof.
  intros S on off.
  destruct (post_init_run bc ext w) as (m1 & t0 & T & _ & R).
  rewrite S in R.
  assert (On : level_writes on = [(66, "0")]).
  { unfold on. erewrite emitted_extends
      by (unfold world_after; rewrite R; reflexivity).
    destruct (only_uname_silent t0 T) as (_ & _ & _ & L & _).
    rewrite !level_writes_app, L.
    destruct (kernel_type_eqb (current_kernel m1) e_kernel_3_2); reflexivity. }
  destruct (exit_run_any bc ext (world_after (bebopr_post_init bc ext) w))
    as (m2 & u0 & u1 & U & L1 & X).
  rewrite S in X.
  assert (Off : level_writes off = [(66, "1")]).
  { unfold off. erewrite emitted_extends
      by (unfold world_after at 1; rewrite X; reflexivity).
    destruct (only_uname_silent u0 U) as (_ & _ & _ & L & _).
    rewrite !level_writes_app, L, L1. reflexivity. }
  repeat split; try assumption.
  intros pin v I. rewrite On in I. destruct I as [[= <- <-]|[]].
  unfold final_level. rewrite Off. reflexivity.
Qed.

(** X20: export and unexport: once the kernel generation is in the cache, the
    lines [bebopr_post_init] exports and turns into outputs are the lines
    [bebopr_exit] turns into inputs and unexports, and there are any
    exactly on a 3.2 kernel. *)
Lemma power_cycle_exports (bc : build_config) (ext : externals) (w : world) :
  current_kernel (mem w) <> e_kernel_unknown ->
  let on := emitted (bebopr_post_init bc ext) w in
  let off :=
    emitted (bebopr_exit bc ext) (world_after (bebopr_post_init bc ext) w) in
  control_writes "export" on = control_writes "unexport" off
  /\ control_writes "unexport" on = []
  /\ control_writes "export" off = []
  /\ direction_writes on
     = map (fun pin => (pin, "out")) (control_writes "export" on)
  /\ direction_writes off
     = map (fun pin => (pin, "in")) (control_writes "unexport" off)
  /\ (control_writes "export" on <> [] <-> current_kernel (mem w) = e_kernel_3_2).
Proof.
  intros K on off.
  destruct (post_init_run bc ext w) as (m1 & t0 & _ & E & R).
  rewrite (get_kernel_type_hit ext w K) in E.
  injection E as Ek Ew.
  assert (Em : m1 = mem w) by (destruct w; cbn in *; congruence).
  assert (Et : t0 = []).
  { apply (app_inv_head (trace w)). rewrite app_nil_r.
    destruct w; cbn in *; congruence. }
  subst m1 t0. cbn [app] in R.
  match type of R with
  | _ = (_, {| mem := _; trace := _ ++ ?l |}) => set (ON := l) in R
  end.
  assert (W1 : world_after (bebopr_post_init bc ext) w
               = {| mem := mem w; trace := trace w ++ ON |})
    by (unfold world_after; now rewrite R).
  assert (HOn : on = ON) by (apply emitted_extends; rewrite W1; reflexivity).
  assert (X := exit_run bc ext {| mem := mem w; trace := trace w ++ ON |} K).
  cbn [mem trace] in X.
  match type of X with
  | _ = (_, {| mem := _; trace := _ ++ ?l |}) => set (OFF := l) in X
  end.
  assert (HOff : off = OFF).
  { unfold off. rewrite W1. apply emitted_extends. unfold world_after.
    rewrite X. reflexivity. }
  rewrite HOn, HOff. subst ON OFF.
  destruct (current_kernel (mem w)) eqn:Ck;
    destruct (BONE_BRIDGE bc || BONE_ENA_PATCH bc);
    cbn; repeat split; try congruence; try discriminate.
Qed.

(** The whole power cycle of the stock build on a 3.2 kernel. *)
Example power_cycle_stock_on_3_2 :
  let ext := constant_platform 0 "3.2.42" (fun _ => 0) 0 in
  let w := world_with_kernel e_kernel_3_2 "3.2.42" in
  emitted (bebopr_post_init stock_build ext) w
  = [ev_gpio_write_int_value_to_file "export" 38;
     ev_gpio_write_value_to_pin_file 38 "direction" "out";
     ev_gpio_write_int_value_to_file "export" 34;
     ev_gpio_write_value_to_pin_file 34 "direction" "out";
     ev_gpio_write_value_to_pin_file 38 "value" "1";
     ev_gpio_write_value_to_pin_file 34 "value" "0";
     ev_stderr ("Turned BEBOPR I/O power on" ++ newline)]
  /\ emitted (bebopr_exit stock_build ext)
       (world_after (bebopr_post_init stock_build ext) w)
     = [ev_gpio_write_value_to_pin_file 38 "value" "1";
        ev_gpio_write_value_to_pin_file 34 "value" "0";
        ev_gpio_write_value_to_pin_file 38 "direction" "in";
        ev_gpio_write_int_value_to_file "unexport" 38;
        ev_gpio_write_value_to_pin_file 34 "direction" "in";
        ev_gpio_write_int_value_to_file "unexport" 34;
        ev_stderr ("Turned BEBOPR I/O power off" ++ newline)].
Proof. split; reflexivity. Qed.

(** The whole power cycle of the Bridge build on a 3.8 kernel. *)
Example power_cycle_bridge_on_3_8 :
  let ext := constant_platform 0 "3.8.13-bone30" (fun _ => 0) 0 in
  let w := world_with_kernel e_kernel_3_8 "3.8.13-bone30" in
  emitted (bebopr_post_init bridge_build ext) w
  = [ev_gpio_write_value_to_pin_file 66 "value" "0";
     ev_stderr ("Turned BEBOPR I/O power on" ++ newline)]
  /\ emitted (bebopr_exit bridge_build ext)
       (world_after (bebopr_post_init bridge_build ext) w)
     = [ev_gpio_write_value_to_pin_file 66 "value" "1";
        ev_stderr ("Turned BEBOPR I/O power off" ++ newline)].
Proof. split; reflexivity. Qed.

(** ** E axis mode *)

(** [config_set_e_axis_mode] returns the previous setting, 0 initially,
    and the query then reflects the new one, normalised to 0 or 1. *)
Lemma set_e_axis_mode_returns_previous (relative : Z) (w : world) :
  result_of (config_set_e_axis_mode relative) w = e_axis_rel_mode (mem w)
  /\ result_of config_e_axis_is_always_relative
       (world_after (config_set_e_axis_mode relative) w)
     = (if relative =? 0 then 0 else 1)
  /\ result_of (config_set_e_axis_mode 1) initial_world = 0.
Proof.
  repeat split. unfold result_of, world_after, config_set_e_axis_mode,
    config_e_axis_is_always_relative. run_step.
  destruct (relative =? 0); reflexivity.
Qed.

(** * Further properties *)

(** ** The cached release text *)

Lemma c_string_take_length (n : nat) (s : string) :
  (String.length (c_string_take n s) <= n)%nat.
Proof.
  revert s. induction n as [|n IH]; intros s; [destruct s; cbn; lia|].
  destruct s as [|c s]; cbn [c_string_take]; [cbn; lia|].
  destruct (char_code c =? 0); cbn [String.length]; [lia|].
  specialize (IH s). lia.
Qed.

Lemma c_string_take_no_nul (n : nat) (s : string) :
  no_nul (c_string_take n s).
Proof.
  revert s. induction n as [|n IH]; intros s; [destruct s; exact Logic.I|].
  destruct s as [|c s]; cbn [c_string_take]; [exact Logic.I|].
  destruct (Z.eqb_spec (char_code c) 0); [exact Logic.I|].
  split; [assumption|apply IH].
Qed.

Lemma c_string_take_prefix (n : nat) (s : string) :
  prefix (c_string_take n s) s = true.
Proof.
  revert s. induction n as [|n IH]; intros s; [destruct s; reflexivity|].
  destruct s as [|c s]; cbn [c_string_take]; [reflexivity|].
  destruct (char_code c =? 0); [reflexivity|].
  cbn [prefix]. destruct (ascii_dec c c); [apply IH|congruence].
Qed.

Lemma c_string_take_all (n : nat) (s : string) :
  no_nul s -> (String.length s <= n)%nat -> c_string_take n s = s.
Proof.
  revert s. induction n as [|n IH]; intros s N L.
  - destruct s; [reflexivity|cbn in L; lia].
  - destruct s as [|c s]; [reflexivity|]. destruct N as [Nc N].
    cbn [c_string_take]. destruct (Z.eqb_spec (char_code c) 0); [contradiction|].
    f_equal. apply IH; [exact N|]. cbn in L. lia.
Qed.

(** X1: a query that succeeds on an empty cache leaves in
    [kernel_release] a text of at most 49 characters without NUL that is
    an initial part of the release [uname] delivered. *)
Theorem kernel_release_bounded (ext : externals) (w : world) :
  current_kernel (mem w) = e_kernel_unknown ->
  fst (uname ext (trace w)) = 0 ->
  let rel := kernel_release (mem (world_after (get_kernel_type ext) w)) in
  (String.length rel <= 49)%nat
  /\ no_nul rel
  /\ prefix rel (release (snd (uname ext (trace w)))) = true.
Proof.
  intros C U rel. unfold rel, world_after.
  rewrite (get_kernel_type_miss ext w C). cbv zeta. rewrite U.
  cbn [snd mem Z.eqb kernel_release set_kernel_release].
  unfold strncpy_terminated. cbn [Nat.pred].
  split; [apply c_string_take_length|].
  split; [apply c_string_take_no_nul|apply c_string_take_prefix].
Qed.

(** X2: when the release has at most 49 characters, none of them NUL, the
    cache holds it unchanged. *)
Theorem kernel_release_verbatim (ext : externals) (w : world) :
  current_kernel (mem w) = e_kernel_unknown ->
  fst (uname ext (trace w)) = 0 ->
  no_nul (release (snd (uname ext (trace w)))) ->
  (String.length (release (snd (uname ext (trace w)))) <= 49)%nat ->
  kernel_release (mem (world_after (get_kernel_type ext) w))
  = release (snd (uname ext (trace w))).
Proof.
  intros C U N L. unfold world_after.
  rewrite (get_kernel_type_miss ext w C). cbv zeta. rewrite U.
  cbn [snd mem Z.eqb kernel_release set_kernel_release].
  unfold strncpy_terminated. cbn [Nat.pred].
  apply c_string_take_all; assumption.
Qed.

Lemma kernel_release_bounded_witness :
  current_kernel (mem initial_world) = e_kernel_unknown
  /\ fst (uname long_release_platform (trace initial_world)) = 0
  /\ (String.length long_release = 63)%nat
  /\ (String.length
        (kernel_release
           (mem (world_after (get_kernel_type long_release_platform)
                   initial_world))) <= 49)%nat.
Proof.
  split; [reflexivity|]. split; [reflexivity|]. split; [reflexivity|].
  exact (proj1 (kernel_release_bounded long_release_platform initial_world
                  eq_refl eq_refl)).
Defined.

Lemma kernel_release_verbatim_witness :
  current_kernel (mem initial_world) = e_kernel_unknown
  /\ kernel_release
       (mem (world_after
               (get_kernel_type
                  (constant_platform 0 "3.8.13-bone30" (fun _ => 0) 0))
               initial_world))
     = "3.8.13-bone30".
Proof.
  split; [reflexivity|].
  apply (kernel_release_verbatim
           (constant_platform 0 "3.8.13-bone30" (fun _ => 0) 0)
           initial_world eq_refl eq_refl).
  - cbn. repeat split; discriminate.
  - cbn. lia.
Defined.

(** ** Kernel variant detector, continued *)

(** A query in full: result and cache agree afterwards, the settings are
    untouched, the trace grows by the [uname] query exactly when the cache
    was empty, and with a filled cache nothing changes at all. *)
Lemma get_kernel_type_frame (ext : externals) (w : world) :
  exists m' t,
    get_kernel_type ext w
    = (current_kernel m', {| mem := m'; trace := trace w ++ t |})
    /\ same_settings (mem w) m'
    /\ only_uname t
    /\ (current_kernel (mem w) <> e_kernel_unknown -> m' = mem w /\ t = [])
    /\ (current_kernel (mem w) = e_kernel_unknown ->
        t = [ev_uname (fst (uname ext (trace w))) (snd (uname ext (trace w)))]).
Proof.
  destruct (kernel_type_eqb (current_kernel (mem w)) e_kernel_unknown) eqn:E.
  - apply kernel_type_eqb_eq in E. rewrite (get_kernel_type_miss ext w E).
    cbv zeta. destruct (uname ext (trace w)) as [rc u]. cbn [fst snd].
    destruct (rc =? 0).
    + eexists (set_kernel_release _ (set_current_kernel _ (mem w))), _.
      split; [reflexivity|]. cbn.
      split; [repeat split|]. split; [right; eauto|].
      split; [congruence|reflexivity].
    + exists (mem w), [ev_uname rc u]. rewrite E.
      split; [reflexivity|]. split; [repeat split|]. split; [right; eauto|].
      split; [congruence|reflexivity].
  - apply kernel_type_eqb_neq in E. rewrite (get_kernel_type_hit ext w E).
    exists (mem w), []. rewrite app_nil_r. destruct w; cbn in *.
    split; [reflexivity|]. split; [repeat split|]. split; [left; reflexivity|].
    split; [auto|congruence].
Qed.

(** X3: [get_kernel_type] returns unknown exactly when the cache is empty
    and [uname] fails; every release [uname] delivers, recognised or not,
    gives a generation other than unknown. *)
Theorem get_kernel_type_unknown_iff (ext : externals) (w : world) :
  result_of (get_kernel_type ext) w = e_kernel_unknown
  <-> current_kernel (mem w) = e_kernel_unknown
      /\ fst (uname ext (trace w)) <> 0.
Proof.
  unfold result_of. split.
  - intros R.
    destruct (kernel_type_eqb (current_kernel (mem w)) e_kernel_unknown) eqn:E.
    + apply kernel_type_eqb_eq in E. split; [exact E|].
      rewrite (get_kernel_type_miss ext w E) in R. cbv zeta in R. cbn [fst] in R.
      intros Z0. rewrite Z0 in R. cbn [Z.eqb] in R.
      destruct (prefix "3.2" _); [discriminate|].
      destruct (prefix "3.8" _); discriminate.
    + apply kernel_type_eqb_neq in E.
      rewrite (get_kernel_type_hit ext w E) in R. cbn [fst] in R. contradiction.
  - intros [E F]. rewrite (get_kernel_type_miss ext w E). cbv zeta. cbn [fst].
    apply Z.eqb_neq in F. now rewrite F.
Qed.

(** X4: a [get_kernel_type] call writes no diagnostic, touches no GPIO
    file, registers nothing and reads no EEPROM; it asks [uname] once when
    the cache is empty and never otherwise; and it leaves the driver
    selection, the calibration positions and the E axis mode as they
    were. *)
Theorem get_kernel_type_quiet (ext : externals) (w : world) :
  let t := emitted (get_kernel_type ext) w in
  diagnostics t = []
  /\ level_writes t = [] /\ direction_writes t = []
  /\ (forall file, control_writes file t = [])
  /\ registrations t = [] /\ eeprom_reads t = []
  /\ uname_queries t
     = (if kernel_type_eqb (current_kernel (mem w)) e_kernel_unknown
        then 1%nat else 0%nat)
  /\ same_settings (mem w) (mem (world_after (get_kernel_type ext) w)).
Proof.
  intros t.
  destruct (get_kernel_type_frame ext w) as (m' & t0 & E & S & T & Hit & Miss).
  assert (Et : t = t0)
    by (apply emitted_extends; unfold world_after; now rewrite E).
  destruct (only_uname_silent t0 T) as (Rg & Ee & Dg & Lv & Dr & Cw).
  unfold world_after. rewrite Et, E. cbn [snd mem].
  repeat (split; [assumption|]). split; [|exact S].
  destruct (kernel_type_eqb (current_kernel (mem w)) e_kernel_unknown) eqn:K.
  - apply kernel_type_eqb_eq in K. rewrite (Miss K). reflexivity.
  - apply kernel_type_eqb_neq in K. destruct (Hit K) as [_ ->]. reflexivity.
Qed.

(** ** Pre-init orchestrator, continued *)

Lemma direction_writes_app (t u : list event) :
  direction_writes (t ++ u) = direction_writes t ++ direction_writes u.
Proof.
  induction t as [|e t IH]; [reflexivity|].
  destruct e; cbn [app direction_writes]; rewrite ?IH; try reflexivity.
  destruct (file =? "direction")%string; rewrite ?IH; reflexivity.
Qed.

Lemma uname_queries_app (t u : list event) :
  uname_queries (t ++ u) = (uname_queries t + uname_queries u)%nat.
Proof.
  induction t as [|e t IH]; [reflexivity|].
  destruct e; cbn [app uname_queries]; rewrite IH; reflexivity.
Qed.

(** The three ways a [bebopr_pre_init] goes: stopped by an unknown
    kernel, stopped by the Bridge on a 3.2 kernel, or on to the
    registration sequence. *)
Lemma pre_init_cases (bc : build_config) (ext : externals) (w : world) :
  exists m1 t0 t r m',
    get_kernel_type ext w
    = (current_kernel m1, {| mem := m1; trace := trace w ++ t0 |})
    /\ same_settings (mem w) m1
    /\ only_uname t0
    /\ (current_kernel (mem w) <> e_kernel_unknown -> m1 = mem w /\ t0 = [])
    /\ (current_kernel (mem w) = e_kernel_unknown -> exists rc u,
          t0 = [ev_uname rc u])
    /\ bebopr_pre_init bc ext w
       = (r, {| mem := m'; trace := trace w ++ t0 ++ t |})
    /\ ((current_kernel m1 = e_kernel_unknown
         /\ t = [ev_stderr (incompatible_text bc m1)] /\ r = -1 /\ m' = m1)
        \/ (BONE_BRIDGE bc = true /\ current_kernel m1 = e_kernel_3_2
            /\ t = [ev_stderr (configured_text bc m1); ev_stderr bridge_text]
            /\ r = -1 /\ m' = m1)
        \/ (current_kernel m1 <> e_kernel_unknown
            /\ BONE_BRIDGE bc
               && kernel_type_eqb (current_kernel m1) e_kernel_3_2 = false
            /\ exists t1,
                 t = ev_stderr (configured_text bc m1) :: t1
                 /\ tables_outcome bc ext m1 t1 r m')).
Proof.
  destruct (get_kernel_type_frame ext w) as (m1 & t0 & E & S & T & Hit & Miss).
  assert (Miss' : current_kernel (mem w) = e_kernel_unknown ->
                  exists rc u, t0 = [ev_uname rc u]) by eauto.
  destruct (kernel_type_eqb (current_kernel m1) e_kernel_unknown) eqn:K.
  - apply kernel_type_eqb_eq in K.
    assert (U : result_of (get_kernel_type ext) w = e_kernel_unknown)
      by (unfold result_of; now rewrite E).
    pose proof (pre_init_unknown_run bc ext w U) as R.
    pose proof (get_kernel_type_unknown ext w U) as E'.
    rewrite E in E'. injection E' as _ Em Et. apply app_inv_head in Et.
    subst m1 t0.
    eexists (mem w), _, _, _, _.
    repeat (split; [first [exact E | exact S | exact T | exact Hit
                          | exact Miss' | exact R]|]).
    left. repeat split. exact K.
  - apply kernel_type_eqb_neq in K.
    assert (K' : result_of (get_kernel_type ext) w <> e_kernel_unknown)
      by (unfold result_of; now rewrite E).
    destruct (pre_init_known_run bc ext w K') as (m2 & u0 & E2 & _ & _ & R).
    rewrite E in E2. injection E2 as _ Em Et. apply app_inv_head in Et.
    subst m2 u0.
    destruct (BONE_BRIDGE bc && kernel_type_eqb (current_kernel m1) e_kernel_3_2)
      eqn:B.
    + apply andb_prop in B. destruct B as [B1 B2].
      apply kernel_type_eqb_eq in B2.
      eexists m1, t0, _, _, _.
      repeat (split; [first [exact E | exact S | exact T | exact Hit
                            | exact Miss' | exact R]|]).
      right. left. repeat split; assumption.
    + destruct (pre_init_tables_run bc ext
                  {| mem := m1;
                     trace := trace w ++ t0
                              ++ [ev_stderr (configured_text bc m1)] |})
        as (t1 & r & m' & E3 & O).
      cbn [mem trace] in E3, O.
      exists m1, t0, (ev_stderr (configured_text bc m1) :: t1), r, m'.
      repeat (split; [first [exact E | exact S | exact T | exact Hit
                            | exact Miss']|]).
      split; [rewrite R, E3; join_trace; reflexivity|].
      right. right. split; [exact K|]. split; [exact B|].
      exists t1. split; [reflexivity|exact O].
Qed.

(** Unpack a run of [bebopr_pre_init] into its case, its events, its
    result and its final statics. *)
Ltac pre_init_run bc ext w :=
  let m1 := fresh "m1" in
  let t0 := fresh "t0" in
  let t := fresh "t" in
  let r := fresh "r" in
  let m' := fresh "m'" in
  destruct (pre_init_cases bc ext w)
    as (m1 & t0 & t & r & m' & Eg & Sg & Tg & Hit & Miss & Rp & Cases);
  assert (Et : emitted (bebopr_pre_init bc ext) w = t0 ++ t)
    by (apply emitted_extends; unfold world_after; now rewrite Rp);
  assert (Er : result_of (bebopr_pre_init bc ext) w = r)
    by (unfold result_of; now rewrite Rp);
  assert (Em : mem (world_after (bebopr_pre_init bc ext) w) = m')
    by (unfold world_after; now rewrite Rp);
  assert (Ek : result_of (get_kernel_type ext) w = current_kernel m1)
    by (unfold result_of; now rewrite Eg);
  destruct (only_uname_silent t0 Tg) as (Rg0 & Ee0 & Dg0 & Lv0 & Dr0 & Cw0).

(** X5: [bebopr_pre_init] gets as far as a registration exactly when the
    kernel generation is not unknown and the build is not a Bridge build
    on a 3.2 kernel, and the first registration is then the one of the
    analog inputs; a kernel classified as other is let through. *)
Theorem pre_init_reaches_registration_iff
    (bc : build_config) (ext : externals) (w : world) :
  (result_of (get_kernel_type ext) w <> e_kernel_unknown
   /\ BONE_BRIDGE bc
      && kernel_type_eqb (result_of (get_kernel_type ext) w) e_kernel_3_2
      = false)
  <-> exists rc rest,
        registrations (emitted (bebopr_pre_init bc ext) w)
        = (stage_analog, rc) :: rest.
Proof.
  pre_init_run bc ext w. rewrite Et, Ek, registrations_app, Rg0. cbn [app].
  destruct Cases as [(K & -> & _)|[(B & K & -> & _)|(K & B & t1 & -> & O)]].
  - split; [intros [N _]; contradiction|intros (rc & rest & [=])].
  - split; [|intros (rc & rest & [=])].
    rewrite B, K. intros [_ [=]].
  - split; [intros _|intros _; split; assumption].
    inversion O; subst; cbn; eauto.
Qed.

(** X6: [bebopr_pre_init] never returns a positive value; it returns 0
    exactly when it read the EEPROM, which is exactly when all four
    tables were registered, in order, and none was rejected. *)
Theorem pre_init_result_sign
    (bc : build_config) (ext : externals) (w : world) :
  let t := emitted (bebopr_pre_init bc ext) w in
  let r := result_of (bebopr_pre_init bc ext) w in
  r <= 0
  /\ (r = 0 <-> eeprom_reads t <> [])
  /\ (r = 0 <->
      map fst (registrations t) = stage_order
      /\ forall s rc, In (s, rc) (registrations t) -> 0 <= rc).
Proof.
  intros t r. subst t r. pre_init_run bc ext w.
  rewrite Et, Er, registrations_app, eeprom_reads_app, Rg0, Ee0. cbn [app].
  destruct Cases as [(K & -> & -> & _)|[(B & K & -> & -> & _)
                                       |(K & B & t1 & -> & O)]].
  - cbn. repeat split; try lia; try congruence; intros [[=] _].
  - cbn. repeat split; try lia; try congruence; intros [[=] _].
  - inversion O; subst; cbn.
    + repeat split; try lia; try congruence; intros [[=] _].
    + repeat split; try lia; try congruence; intros [[=] _].
    + repeat split; try lia; try congruence; intros [[=] _].
    + repeat split; try lia; try congruence. intros [_ A].
      specialize (A stage_heater _
                    (or_intror (or_intror (or_intror (or_introl eq_refl))))).
      lia.
    + repeat split; try lia; try congruence.
      intros s rc [[= <- <-]|[[= <- <-]|[[= <- <-]|[[= <- <-]|[]]]]];
        assumption.
Qed.

(** X7: [bebopr_pre_init] writes to no GPIO file, whatever its outcome. *)
Theorem pre_init_no_gpio (bc : build_config) (ext : externals) (w : world) :
  let t := emitted (bebopr_pre_init bc ext) w in
  level_writes t = []
  /\ direction_writes t = []
  /\ forall file, control_writes file t = [].
Proof.
  intros t. subst t. pre_init_run bc ext w.
  rewrite Et, level_writes_app, direction_writes_app, Lv0, Dr0. cbn [app].
  assert (C : forall file, control_writes file t = [] ->
                           control_writes file (t0 ++ t) = [])
    by (intros file H; now rewrite control_writes_app, Cw0, H).
  destruct Cases as [(K & -> & _)|[(B & K & -> & _)|(K & B & t1 & -> & O)]].
  - repeat split. intros file. now apply C.
  - repeat split. intros file. now apply C.
  - inversion O; subst; repeat split; intros file; now apply C.
Qed.

(** X8: [bebopr_pre_init] calls [get_kernel_type] up to three times but
    asks the operating system at most once: once when the cache is empty,
    never when it is filled. *)
Theorem pre_init_single_uname
    (bc : build_config) (ext : externals) (w : world) :
  uname_queries (emitted (bebopr_pre_init bc ext) w)
  = (if kernel_type_eqb (current_kernel (mem w)) e_kernel_unknown
     then 1%nat else 0%nat).
Proof.
  pre_init_run bc ext w. rewrite Et, uname_queries_app.
  assert (Q : uname_queries t = 0%nat).
  { destruct Cases as [(K & -> & _)|[(B & K & -> & _)|(K & B & t1 & -> & O)]];
      [reflexivity|reflexivity|].
    inversion O; subst; reflexivity. }
  rewrite Q, Nat.add_0_r.
  destruct (kernel_type_eqb (current_kernel (mem w)) e_kernel_unknown) eqn:K.
  - apply kernel_type_eqb_eq in K. destruct (Miss K) as (rc & u & ->).
    reflexivity.
  - apply kernel_type_eqb_neq in K. destruct (Hit K) as [_ ->]. reflexivity.
Qed.

(** X9: [bebopr_pre_init] leaves the calibration positions and the E axis
    mode as they were; [use_pololu_drivers] becomes 0 when the EEPROM was
    read and returned [TB6560_DRIVERS] and keeps its value in every other
    case, so a run that fails, or reads another value, never selects
    Pololu again after TB6560 was selected. *)
Theorem pre_init_statics (bc : build_config) (ext : externals) (w : world) :
  let t := emitted (bebopr_pre_init bc ext) w in
  let m' := mem (world_after (bebopr_pre_init bc ext) w) in
  same_positions (mem w) m'
  /\ use_pololu_drivers m'
     = match eeprom_reads t with
       | step_io :: _ =>
           if step_io =? TB6560_DRIVERS ext then 0
           else use_pololu_drivers (mem w)
       | [] => use_pololu_drivers (mem w)
       end.
Proof.
  intros t m'. subst t m'. pre_init_run bc ext w.
  rewrite Et, Em, eeprom_reads_app, Ee0. cbn [app].
  destruct Sg as (Sp & Sx & Sy & Sz & Se).
  assert (P1 : same_positions (mem w) m1) by (repeat split; assumption).
  destruct Cases as [(K & -> & _ & ->)|[(B & K & -> & _ & ->)
                                       |(K & B & t1 & -> & O)]].
  - split; [exact P1|exact Sp].
  - split; [exact P1|exact Sp].
  - inversion O; subst; cbn [eeprom_reads stage_event];
      try (split; [exact P1|exact Sp]).
    unfold select_drivers.
    destruct (step_io =? TB6560_DRIVERS ext);
      (split; [repeat split; assumption|first [reflexivity|exact Sp]]).
Qed.

(** ** Power sequencer, continued *)

(** [bebopr_post_init] with what its kernel query does to the statics. *)
Lemma post_init_frame (bc : build_config) (ext : externals) (w : world) :
  exists m1 t0 t,
    same_settings (mem w) m1
    /\ only_uname t0
    /\ (current_kernel (mem w) <> e_kernel_unknown -> m1 = mem w /\ t0 = [])
    /\ bebopr_post_init bc ext w
       = (0, {| mem := m1; trace := trace w ++ t0 ++ t |})
    /\ t = (if kernel_type_eqb (current_kernel m1) e_kernel_3_2 then
              if BONE_BRIDGE bc || BONE_ENA_PATCH bc then
                [ev_gpio_write_int_value_to_file "export" 66;
                 ev_gpio_write_value_to_pin_file 66 "direction" "out"]
              else
                [ev_gpio_write_int_value_to_file "export" 38;
                 ev_gpio_write_value_to_pin_file 38 "direction" "out";
                 ev_gpio_write_int_value_to_file "export" 34;
                 ev_gpio_write_value_to_pin_file 34 "direction" "out"]
            else [])
           ++ (if BONE_BRIDGE bc || BONE_ENA_PATCH bc then
                 [ev_gpio_write_value_to_pin_file 66 "value" "0"]
               else
                 [ev_gpio_write_value_to_pin_file 38 "value" "1";
                  ev_gpio_write_value_to_pin_file 34 "value" "0"])
           ++ [ev_stderr ("Turned BEBOPR I/O power on" ++ newline)].
Proof.
  destruct (get_kernel_type_frame ext w) as (m1 & t0 & E & S & T & Hit & _).
  destruct (post_init_run bc ext w) as (m2 & u0 & _ & E2 & R).
  rewrite E in E2. injection E2 as _ Em Et. apply app_inv_head in Et.
  subst m2 u0.
  eexists m1, t0, _. repeat (split; [first [exact S|exact T|exact Hit]|]).
  split; [exact R|reflexivity].
Qed.

(** [bebopr_exit] likewise; its kernel query comes after the level
    writes. *)
Lemma exit_frame (bc : build_config) (ext : externals) (w : world) :
  exists m1 t0,
    same_settings (mem w) m1
    /\ only_uname t0
    /\ (current_kernel (mem w) <> e_kernel_unknown -> m1 = mem w /\ t0 = [])
    /\ bebopr_exit bc ext w
       = (tt,
          {| mem := m1;
             trace :=
               trace w
               ++ (if BONE_BRIDGE bc || BONE_ENA_PATCH bc then
                     [ev_gpio_write_value_to_pin_file 66 "value" "1"]
                   else
                     [ev_gpio_write_value_to_pin_file 38 "value" "1";
                      ev_gpio_write_value_to_pin_file 34 "value" "0"])
               ++ t0
               ++ (if kernel_type_eqb (current_kernel m1) e_kernel_3_2 then
                     if BONE_BRIDGE bc || BONE_ENA_PATCH bc then
                       [ev_gpio_write_value_to_pin_file 66 "direction" "in";
                        ev_gpio_write_int_value_to_file "unexport" 66]
                     else
                       [ev_gpio_write_value_to_pin_file 38 "direction" "in";
                        ev_gpio_write_int_value_to_file "unexport" 38;
                        ev_gpio_write_value_to_pin_file 34 "direction" "in";
                        ev_gpio_write_int_value_to_file "unexport" 34]
                   else [])
               ++ [ev_stderr ("Turned BEBOPR I/O power off" ++ newline)] |}).
Proof.
  unfold bebopr_exit.
  destruct (BONE_BRIDGE bc || BONE_ENA_PATCH bc);
    unfold gpio_write_int_value_to_file, gpio_write_value_to_pin_file;
    run_step;
    match goal with
    | |- context [get_kernel_type ext ?w1] =>
        destruct (get_kernel_type_frame ext w1)
          as (m1 & t0 & E & S & T & Hit & _);
        rewrite E; cbn [mem trace] in S, Hit
    end;
    (exists m1, t0;
     repeat (split; [first [exact S|exact T|exact Hit]|]));
    destruct (kernel_type_eqb (current_kernel m1) e_kernel_3_2);
    run_step; join_trace; reflexivity.
Qed.

(** X10: the power sequencer registers no table and reads no EEPROM;
    [bebopr_post_init] returns 0 in every build and for every kernel
    generation, unknown included; each of the two writes its one
    diagnostic and leaves driver selection, calibration positions and E
    axis mode as they were. *)
Theorem power_sequencer_side_effects
    (bc : build_config) (ext : externals) (w : world) :
  let on := emitted (bebopr_post_init bc ext) w in
  let off := emitted (bebopr_exit bc ext) w in
  result_of (bebopr_post_init bc ext) w = 0
  /\ registrations on = [] /\ eeprom_reads on = []
  /\ diagnostics on = [("Turned BEBOPR I/O power on" ++ newline)%string]
  /\ same_settings (mem w) (mem (world_after (bebopr_post_init bc ext) w))
  /\ registrations off = [] /\ eeprom_reads off = []
  /\ diagnostics off = [("Turned BEBOPR I/O power off" ++ newline)%string]
  /\ same_settings (mem w) (mem (world_after (bebopr_exit bc ext) w)).
Proof.
  intros on off. subst on off.
  destruct (post_init_frame bc ext w) as (m1 & t0 & t & S & T & _ & R & Ht).
  destruct (exit_frame bc ext w) as (m2 & u0 & S2 & U & _ & X).
  destruct (only_uname_silent t0 T) as (Rg & Ee & Dg & _).
  destruct (only_uname_silent u0 U) as (Rg2 & Ee2 & Dg2 & _).
  rewrite (emitted_extends (bebopr_post_init bc ext) w (t0 ++ t))
    by (unfold world_after; now rewrite R).
  rewrite (emitted_extends (bebopr_exit bc ext) w _)
    by (unfold world_after; rewrite X; reflexivity).
  unfold result_of, world_after. rewrite R, X. cbn [fst snd mem].
  rewrite !registrations_app, !eeprom_reads_app, !diagnostics_app.
  rewrite Rg, Ee, Dg, Rg2, Ee2, Dg2, Ht.
  destruct (kernel_type_eqb (current_kernel m1) e_kernel_3_2);
    destruct (kernel_type_eqb (current_kernel m2) e_kernel_3_2);
    destruct (BONE_BRIDGE bc || BONE_ENA_PATCH bc);
    cbn; repeat split; first [apply S | apply S2].
Qed.

(** X11: with the kernel generation in the cache, what the power
    sequencer writes depends on the build and on that generation alone:
    not on the trace so far, not on the other statics, not on the
    platform.  [bebopr_exit] without a [bebopr_post_init] before it, or a
    second [bebopr_post_init], issue the same writes as ever. *)
Theorem power_sequencer_ignores_history
    (bc : build_config) (ext ext' : externals) (w w' : world) :
  current_kernel (mem w) <> e_kernel_unknown ->
  current_kernel (mem w') = current_kernel (mem w) ->
  emitted (bebopr_post_init bc ext) w = emitted (bebopr_post_init bc ext') w'
  /\ emitted (bebopr_exit bc ext) w = emitted (bebopr_exit bc ext') w'.
Proof.
  intros K Same.
  assert (K' : current_kernel (mem w') <> e_kernel_unknown) by congruence.
  destruct (post_init_frame bc ext w) as (m1 & t0 & t & _ & _ & Hit & R & Ht).
  destruct (post_init_frame bc ext' w') as (m2 & u0 & u & _ & _ & Hit' & R' & Hu).
  destruct (Hit K) as [-> ->]. destruct (Hit' K') as [-> ->].
  rewrite (emitted_extends (bebopr_post_init bc ext) w t)
    by (unfold world_after; now rewrite R).
  rewrite (emitted_extends (bebopr_post_init bc ext') w' u)
    by (unfold world_after; now rewrite R').
  split; [subst t u; now rewrite Same|].
  erewrite (emitted_extends (bebopr_exit bc ext) w)
    by (unfold world_after; rewrite (exit_run bc ext w K); reflexivity).
  erewrite (emitted_extends (bebopr_exit bc ext') w')
    by (unfold world_after; rewrite (exit_run bc ext' w' K'); reflexivity).
  now rewrite Same.
Qed.

(** ** Sequences of calls *)

Lemma tables_outcome_effect
    (bc : build_config) (ext : externals) (m m' : statics)
    (t : list event) (r : Z) :
  tables_outcome bc ext m t r m' ->
  uname_queries t = 0%nat
  /\ current_kernel m' = current_kernel m
  /\ kernel_release m' = kernel_release m
  /\ same_positions m m'
  /\ (use_pololu_drivers m' = use_pololu_drivers m
      \/ use_pololu_drivers m' = 0).
Proof.
  intros O. inversion O; subst; try (repeat split; auto; fail).
  unfold select_drivers. destruct (step_io =? TB6560_DRIVERS ext);
    repeat split; auto.
Qed.

(** What one call may do to the statics and to the trace. *)
Lemma run_call_effect
    (bc : build_config) (ext : externals) (c : api_call) (w : world) :
  exists m' t,
    run_call bc ext c w = (tt, {| mem := m'; trace := trace w ++ t |})
    /\ (current_kernel (mem w) <> e_kernel_unknown ->
        current_kernel m' = current_kernel (mem w)
        /\ kernel_release m' = kernel_release (mem w)
        /\ uname_queries t = 0%nat)
    /\ (use_pololu_drivers m' = use_pololu_drivers (mem w)
        \/ use_pololu_drivers m' = 0)
    /\ (is_flag (e_axis_rel_mode (mem w)) -> is_flag (e_axis_rel_mode m'))
    /\ (is_set_cal_pos c = false ->
        x_cal_pos m' = x_cal_pos (mem w)
        /\ y_cal_pos m' = y_cal_pos (mem w)
        /\ z_cal_pos m' = z_cal_pos (mem w)).
Proof.
  destruct c; unfold run_call.
  - destruct (get_kernel_type_frame ext w)
      as (m1 & t0 & E & (Sp & Sx & Sy & Sz & Se) & T & Hit & _).
    exists m1, t0. unfold bind. rewrite E. unfold ret.
    split; [reflexivity|]. split.
    { intros K. destruct (Hit K) as [-> ->]. repeat split. }
    split; [left; exact Sp|]. split; [now rewrite Se|]. now repeat split.
  - destruct (pre_init_cases bc ext w)
      as (m1 & t0 & t & r & m' & _ & (Sp & Sx & Sy & Sz & Se) & T & Hit & _
          & R & Cases).
    exists m', (t0 ++ t). unfold bind. rewrite R. unfold ret.
    split; [reflexivity|].
    assert (F : uname_queries t = 0%nat
                /\ current_kernel m' = current_kernel m1
                /\ kernel_release m' = kernel_release m1
                /\ same_positions m1 m'
                /\ (use_pololu_drivers m' = use_pololu_drivers m1
                    \/ use_pololu_drivers m' = 0)).
    { destruct Cases as [(_ & -> & _ & ->)|[(_ & _ & -> & _ & ->)
                                           |(_ & _ & t1 & -> & O)]];
        [repeat split; auto|repeat split; auto|].
      apply (tables_outcome_effect bc ext m1 m' t1 r O). }
    destruct F as (Q & Fk & Fr & (Fx & Fy & Fz & Fe) & Fp).
    split.
    { intros K. destruct (Hit K) as [-> ->]. cbn [app]. repeat split; auto. }
    split; [destruct Fp as [Fp|Fp]; [left; congruence|right; exact Fp]|].
    split; [intros H; rewrite Fe, Se; exact H|].
    intros _. repeat split; congruence.
  - destruct (post_init_frame bc ext w)
      as (m1 & t0 & t & (Sp & Sx & Sy & Sz & Se) & T & Hit & R & Ht).
    exists m1, (t0 ++ t). unfold bind. rewrite R. unfold ret.
    split; [reflexivity|]. split.
    { intros K. destruct (Hit K) as [-> ->]. cbn [app]. repeat split.
      rewrite Ht.
      destruct (kernel_type_eqb (current_kernel (mem w)) e_kernel_3_2);
        destruct (BONE_BRIDGE bc || BONE_ENA_PATCH bc); reflexivity. }
    split; [left; exact Sp|]. split; [now rewrite Se|]. now repeat split.
  - destruct (exit_frame bc ext w)
      as (m1 & t0 & (Sp & Sx & Sy & Sz & Se) & T & Hit & R).
    eexists m1, _. split; [exact R|]. split.
    { intros K. destruct (Hit K) as [-> ->]. repeat split.
      destruct (kernel_type_eqb (current_kernel (mem w)) e_kernel_3_2);
        destruct (BONE_BRIDGE bc || BONE_ENA_PATCH bc); reflexivity. }
    split; [left; exact Sp|]. split; [now rewrite Se|]. now repeat split.
  - exists (mem w), []. rewrite app_nil_r. unfold config_use_pololu_drivers.
    run_step. destruct w. cbn. repeat split; auto.
  - exists (mem (world_after (config_set_cal_pos axis pos) w)), [].
    rewrite app_nil_r. unfold world_after.
    destruct axis; unfold config_set_cal_pos; run_step; destruct w; cbn;
      repeat split; auto; discriminate.
  - exists (mem w), []. rewrite app_nil_r.
    destruct axis; unfold config_min_switch_pos; run_step; destruct w; cbn;
      repeat split; auto.
  - exists (set_e_axis_rel_mode (if negb (relative =? 0) then 1 else 0) (mem w)),
      [].
    rewrite app_nil_r. unfold config_set_e_axis_mode. run_step.
    split; [reflexivity|]. cbn. repeat split; auto.
    destruct (relative =? 0); [left|right]; reflexivity.
  - exists (mem w), []. rewrite app_nil_r.
    unfold config_e_axis_is_always_relative. run_step. destruct w. cbn.
    repeat split; auto.
Qed.

(** The same for a list of calls. *)
Lemma run_calls_effect
    (bc : build_config) (ext : externals) (cs : list api_call) (w : world) :
  exists m' t,
    run_calls bc ext cs w = (tt, {| mem := m'; trace := trace w ++ t |})
    /\ (current_kernel (mem w) <> e_kernel_unknown ->
        current_kernel m' = current_kernel (mem w)
        /\ kernel_release m' = kernel_release (mem w)
        /\ uname_queries t = 0%nat)
    /\ (use_pololu_drivers m' = use_pololu_drivers (mem w)
        \/ use_pololu_drivers m' = 0)
    /\ (is_flag (e_axis_rel_mode (mem w)) -> is_flag (e_axis_rel_mode m'))
    /\ (forallb (fun c => negb (is_set_cal_pos c)) cs = true ->
        x_cal_pos m' = x_cal_pos (mem w)
        /\ y_cal_pos m' = y_cal_pos (mem w)
        /\ z_cal_pos m' = z_cal_pos (mem w)).
Proof.
  revert w. induction cs as [|c cs IH]; intros w.
  - exists (mem w), []. rewrite app_nil_r. destruct w. cbn.
    repeat split; auto.
  - destruct (run_call_effect bc ext c w) as (m1 & t1 & R1 & K1 & P1 & F1 & C1).
    destruct (IH {| mem := m1; trace := trace w ++ t1 |})
      as (m2 & t2 & R2 & K2 & P2 & F2 & C2).
    cbn [mem trace] in *.
    exists m2, (t1 ++ t2). cbn [run_calls]. unfold bind at 1. rewrite R1, R2.
    rewrite app_assoc. split; [reflexivity|]. split.
    { intros K. destruct (K1 K) as (A1 & B1 & Q1).
      assert (K' : current_kernel m1 <> e_kernel_unknown) by congruence.
      destruct (K2 K') as (A2 & B2 & Q2).
      rewrite uname_queries_app, Q1, Q2. repeat split; congruence. }
    split.
    { destruct P2 as [P2|P2]; [|right; exact P2].
      destruct P1 as [P1|P1]; [left|right]; congruence. }
    split; [auto|].
    cbn [forallb]. intros H. apply andb_prop in H. destruct H as [Hc Hcs].
    apply negb_true_iff in Hc.
    destruct (C1 Hc) as (X1 & Y1 & Z1). destruct (C2 Hcs) as (X2 & Y2 & Z2).
    repeat split; congruence.
Qed.

(** X12: once a kernel generation is in the cache, no sequence of calls
    into the module changes it or the cached release text, and none asks
    the operating system again. *)
Theorem known_kernel_is_stable
    (bc : build_config) (ext : externals) (cs : list api_call) (w : world) :
  current_kernel (mem w) <> e_kernel_unknown ->
  let w' := world_after (run_calls bc ext cs) w in
  current_kernel (mem w') = current_kernel (mem w)
  /\ kernel_release (mem w') = kernel_release (mem w)
  /\ uname_queries (emitted (run_calls bc ext cs) w) = 0%nat.
Proof.
  intros K w'. subst w'.
  destruct (run_calls_effect bc ext cs w) as (m' & t & R & Kp & _).
  rewrite (emitted_extends (run_calls bc ext cs) w t)
    by (unfold world_after; now rewrite R).
  unfold world_after. rewrite R. cbn [snd mem]. exact (Kp K).
Qed.

Lemma known_kernel_is_stable_witness :
  current_kernel (mem (world_with_kernel e_kernel_3_8 "3.8.13-bone30"))
  <> e_kernel_unknown
  /\ current_kernel
       (mem (world_after
               (run_calls stock_build late_uname_platform sample_session)
               (world_with_kernel e_kernel_3_8 "3.8.13-bone30")))
     = e_kernel_3_8.
Proof.
  assert (K : current_kernel
                (mem (world_with_kernel e_kernel_3_8 "3.8.13-bone30"))
              <> e_kernel_unknown) by (cbn; discriminate).
  split; [exact K|].
  exact (proj1 (known_kernel_is_stable stock_build late_uname_platform
                  sample_session
                  (world_with_kernel e_kernel_3_8 "3.8.13-bone30") K)).
Defined.

(** X13: over any sequence of calls [use_pololu_drivers] either keeps its
    value or has become 0: nothing in the module ever selects the Pololu
    personality again once TB6560 was selected. *)
Theorem driver_selection_is_one_way
    (bc : build_config) (ext : externals) (cs : list api_call) (w : world) :
  let w' := world_after (run_calls bc ext cs) w in
  use_pololu_drivers (mem w') = use_pololu_drivers (mem w)
  \/ use_pololu_drivers (mem w') = 0.
Proof.
  intros w'. subst w'.
  destruct (run_calls_effect bc ext cs w) as (m' & t & R & _ & P & _).
  unfold world_after. rewrite R. exact P.
Qed.

(** X14: the calibration positions change through [config_set_cal_pos]
    only: a sequence of calls without it leaves all three as they
    were. *)
Theorem positions_change_by_setter_only
    (bc : build_config) (ext : externals) (cs : list api_call) (w : world) :
  forallb (fun c => negb (is_set_cal_pos c)) cs = true ->
  let w' := world_after (run_calls bc ext cs) w in
  x_cal_pos (mem w') = x_cal_pos (mem w)
  /\ y_cal_pos (mem w') = y_cal_pos (mem w)
  /\ z_cal_pos (mem w') = z_cal_pos (mem w).
Proof.
  intros H w'. subst w'.
  destruct (run_calls_effect bc ext cs w) as (m' & t & R & _ & _ & _ & C).
  unfold world_after. rewrite R. exact (C H).
Qed.

Lemma positions_change_by_setter_only_witness :
  forallb (fun c => negb (is_set_cal_pos c)) sample_session = true
  /\ z_cal_pos
       (mem (world_after
               (run_calls stock_build (step_io_platform 2) sample_session)
               initial_world))
     = z_cal_pos (mem initial_world).
Proof.
  split; [reflexivity|].
  exact (proj2 (proj2 (positions_change_by_setter_only stock_build
                         (step_io_platform 2) sample_session initial_world
                         eq_refl))).
Defined.

(** X15: in every state the module reaches from its initial statics the
    E axis mode is 0 or 1, so [config_set_e_axis_mode] called with the
    value an earlier [config_set_e_axis_mode] returned puts the mode back
    to what it was. *)
Theorem e_axis_mode_restores
    (bc : build_config) (ext : externals) (cs : list api_call)
    (relative : Z) :
  let w := world_after (run_calls bc ext cs) initial_world in
  let old := result_of (config_set_e_axis_mode relative) w in
  is_flag (e_axis_rel_mode (mem w))
  /\ old = e_axis_rel_mode (mem w)
  /\ result_of config_e_axis_is_always_relative
       (world_after (config_set_e_axis_mode old)
          (world_after (config_set_e_axis_mode relative) w))
     = e_axis_rel_mode (mem w).
Proof.
  intros w old.
  assert (F : is_flag (e_axis_rel_mode (mem w))).
  { unfold w.
    destruct (run_calls_effect bc ext cs initial_world)
      as (m' & t & R & _ & _ & F & _).
    unfold world_after. rewrite R. apply F. left. reflexivity. }
  split; [exact F|]. split; [reflexivity|].
  unfold old, result_of, world_after, config_set_e_axis_mode,
    config_e_axis_is_always_relative.
  run_step. cbn. destruct F as [-> | ->]; reflexivity.
Qed.

(** ** Calibration positions, continued *)

(** X16: writes to two different axes do not interfere: the position of
    one reads the same before and after a write to the other, and the two
    writes leave the same statics in either order. *)
Theorem set_cal_pos_independent
    (axis axis' : axis_e) (v v' pos : float) (w : world) :
  axis <> axis' ->
  result_of (config_min_switch_pos axis' pos)
    (world_after (config_set_cal_pos axis v) w)
  = result_of (config_min_switch_pos axis' pos) w
  /\ world_after (config_set_cal_pos axis' v')
       (world_after (config_set_cal_pos axis v) w)
     = world_after (config_set_cal_pos axis v)
         (world_after (config_set_cal_pos axis' v') w).
Proof.
  intros N. destruct axis, axis'; try contradiction; split; reflexivity.
Qed.

Lemma set_cal_pos_independent_witness :
  x_axis <> z_axis
  /\ result_of (config_min_switch_pos z_axis 0.0%float)
       (world_after (config_set_cal_pos x_axis 12.5%float) initial_world)
     = (1, (-2.7955E-3)%float).
Proof.
  assert (N : x_axis <> z_axis) by discriminate.
  split; [exact N|].
  exact (proj1 (set_cal_pos_independent x_axis z_axis 12.5%float 0.0%float
                  0.0%float initial_world N)).
Defined.

Lemma power_sequencer_ignores_history_witness :
  current_kernel (mem (world_with_kernel e_kernel_3_2 "3.2.42"))
  <> e_kernel_unknown
  /\ emitted (bebopr_exit stock_build late_uname_platform)
       (world_with_kernel e_kernel_3_2 "3.2.42")
     = emitted (bebopr_exit stock_build (step_io_platform 2))
         (world_after (bebopr_post_init stock_build (step_io_platform 2))
            (world_with_kernel e_kernel_3_2 "3.2.42")).
Proof.
  assert (K : current_kernel (mem (world_with_kernel e_kernel_3_2 "3.2.42"))
              <> e_kernel_unknown) by (cbn; discriminate).
  split; [exact K|].
  exact (proj2 (power_sequencer_ignores_history stock_build
                  late_uname_platform (step_io_platform 2)
                  (world_with_kernel e_kernel_3_2 "3.2.42")
                  (world_after
                     (bebopr_post_init stock_build (step_io_platform 2))
                     (world_with_kernel e_kernel_3_2 "3.2.42"))
                  K eq_refl)).
Defined.

Lemma power_cycle_single_line_mirrored_witness :
  BONE_BRIDGE bridge_build || BONE_ENA_PATCH bridge_build = true
  /\ mirrored_levels
       (emitted (bebopr_post_init bridge_build (step_io_platform 2))
          initial_world)
       (emitted (bebopr_exit bridge_build (step_io_platform 2))
          (world_after (bebopr_post_init bridge_build (step_io_platform 2))
             initial_world)).
Proof.
  split; [reflexivity|].
  exact (proj2 (proj2 (power_cycle_single_line_mirrored bridge_build
                         (step_io_platform 2) initial_world eq_refl))).
Defined.

Lemma power_cycle_exports_witness :
  current_kernel (mem (world_with_kernel e_kernel_3_2 "3.2.42"))
  <> e_kernel_unknown
  /\ control_writes "export"
       (emitted (bebopr_post_init stock_build (step_io_platform 2))
          (world_with_kernel e_kernel_3_2 "3.2.42"))
     = control_writes "unexport"
         (emitted (bebopr_exit stock_build (step_io_platform 2))
            (world_after (bebopr_post_init stock_build (step_io_platform 2))
               (world_with_kernel e_kernel_3_2 "3.2.42"))).
Proof.
  assert (K : current_kernel (mem (world_with_kernel e_kernel_3_2 "3.2.42"))
              <> e_kernel_unknown) by (cbn; discriminate).
  split; [exact K|].
  exact (proj1 (power_cycle_exports stock_build (step_io_platform 2)
                  (world_with_kernel e_kernel_3_2 "3.2.42") K)).
Defined.

(** ** The configuration tables, continued *)

Lemma distinctb_NoDup {A : Type} (eqb : A -> A -> bool) (l : list A) :
  (forall x, eqb x x = true) -> distinctb eqb l = true -> NoDup l.
Proof.
  intros Refl. induction l as [|x l IH]; intros H; [constructor|].
  cbn in H. apply andb_prop in H. destruct H as [H1 H2].
  constructor; [|apply IH, H2].
  intros In_l. apply negb_true_iff in H1.
  assert (E : existsb (eqb x) l = true)
    by (apply existsb_exists; exists x; split; [exact In_l|apply Refl]).
  congruence.
Qed.

Ltac all_builds bc :=
  destruct bc as [ena bridge bbb ads laser];
  destruct ena, bridge, bbb, ads, laser.

(** X17: in every build the tables refer to each other consistently:
    every temperature sensor reads an analog input that is in the analog
    table, every heater is fed by a temperature sensor of the temperature
    table and drives a PWM output of the PWM table, no tag occurs twice
    in its table, and no two heaters share a sensor or an output. *)
Theorem tables_well_linked (bc : build_config) :
  Forall (fun r => In (source r) (map analog_tag (analog_config_data bc)))
    (temp_config_data bc)
  /\ Forall (fun r =>
               In (analog_input r) (map temp_tag (temp_config_data bc))
               /\ In (analog_output r) (map pwm_tag (pwm_config_data bc)))
       (heater_config_data bc)
  /\ NoDup (map analog_tag (analog_config_data bc))
  /\ NoDup (map temp_tag (temp_config_data bc))
  /\ NoDup (map pwm_tag (pwm_config_data bc))
  /\ NoDup (map heater_tag (heater_config_data bc))
  /\ NoDup (map source (temp_config_data bc))
  /\ NoDup (map analog_input (heater_config_data bc))
  /\ NoDup (map analog_output (heater_config_data bc)).
Proof.
  assert (R : forall x, tag_eqb x x = true)
    by (intros x; apply String.eqb_refl).
  split; [|split].
  - unfold temp_config_data, analog_config_data.
    destruct (LASER_CUTTER bc); repeat (apply Forall_cons || apply Forall_nil);
      cbn; auto.
  - unfold heater_config_data, temp_config_data, pwm_config_data.
    destruct (LASER_CUTTER bc); repeat (apply Forall_cons || apply Forall_nil);
      cbn; auto 6.
  - unfold heater_config_data, temp_config_data, pwm_config_data,
      analog_config_data.
    destruct (LASER_CUTTER bc);
      cbn [map analog_tag temp_tag pwm_tag heater_tag source analog_input
           analog_output];
      repeat (split; [apply (distinctb_NoDup tag_eqb _ R); reflexivity|]);
      apply (distinctb_NoDup tag_eqb _ R); reflexivity.
Qed.

(** X18: in every build the three analog inputs sit on three different
    device paths, and so do the PWM outputs of the PWM table. *)
Theorem tables_distinct_devices (bc : build_config) :
  NoDup (map analog_device_path (analog_config_data bc))
  /\ NoDup (map pwm_device_path (pwm_config_data bc)).
Proof.
  split; apply (distinctb_NoDup String.eqb); try apply String.eqb_refl;
    all_builds bc; vm_compute; reflexivity.
Qed.

(** ** Diagnostics of the kernel checks *)

(** X21: whatever the build, the text assembled in [options] has at most
    19 characters, so it and its terminating NUL fit the 100 characters
    of the buffer. *)
Theorem options_fits_buffer (bc : build_config) :
  (String.length (options bc) <= 19)%nat
  /\ (String.length (options bc) + 1 <= 100)%nat
  /\ no_nul (options bc).
Proof.
  unfold options, strcat.
  destruct (BONE_ENA_PATCH bc), (BONE_BRIDGE bc); cbn;
    repeat split; try lia; discriminate.
Qed.


